(** * ESP8266 authentication server: device registry and token path

    A shallow embedding of [models/device.js], [routes/auth.js] and
    [routes/admin.js], and the properties of the credential registry that
    are stated about them.

    The registry is the in-memory object [this.devices]; every operation
    takes the registry and returns the registry it leaves behind.  What the
    code draws from its environment is an argument of the operation that
    draws it: the bytes of [crypto.randomBytes], the clock, the answer of
    the token issuer, [process.env].  [saveDevices] catches its own errors
    and never touches the in-memory registry, so persistence is left out;
    handlers are taken to run one after the other. *)

From Stdlib Require Import NArith ZArith Ascii String List Lia.
From Stdlib.Strings Require Import Byte.
From stdpp Require Import base option list gmap strings.

Local Open Scope N_scope.

(** ** JavaScript data the server manipulates *)

Module Js.

(** A JavaScript string, as the sequence of its code points: case
    mapping works code point by code point, and the characters the code
    tests for are single code points. *)
Abbreviation jsstring := (list N).

Definition str (s : string) : jsstring :=
  List.map N_of_ascii (list_ascii_of_string s).

(** JSON scalars, the values device metadata carries. *)
Inductive value :=
| VNull
| VBool (b : bool)
| VNum (z : Z)
| VStr (s : jsstring).

(** ToBoolean. *)
Definition truthy (v : value) : bool :=
  match v with
  | VNull => false
  | VBool b => b
  | VNum z => negb (z =? 0)%Z
  | VStr s => match s with [] => false | _ => true end
  end.

(** [!s] for an optional string ([undefined] when the field is absent). *)
Definition falsyStr (o : option jsstring) : bool :=
  match o with
  | None => true
  | Some [] => true
  | Some _ => false
  end.

(** [a || b] on optional property reads. *)
Definition orElse (a : option value) (b : value) : value :=
  match a with
  | Some v => if truthy v then v else b
  | None => b
  end.

(** The properties every object literal [{}] inherits from
    [Object.prototype]; each of them reads as a truthy value. *)
Definition protoKeys : list jsstring :=
  List.map str
    [ "constructor"; "__defineGetter__"; "__defineSetter__"; "hasOwnProperty";
      "__lookupGetter__"; "__lookupSetter__"; "isPrototypeOf";
      "propertyIsEnumerable"; "toString"; "valueOf"; "__proto__";
      "toLocaleString" ]%string.

(** A call either returns or throws an [Error] with a message. *)
Inductive outcome (A : Type) :=
| Return (a : A)
| Throw (message : jsstring).
Arguments Return {A} a.
Arguments Throw {A} message.

(** *** String.prototype.toUpperCase and String.prototype.replace *)

Section Case.
(** Unicode's uppercase mapping of the code points beyond ASCII: the code
    points a given one is replaced by. *)
Variable unicodeUpper : N -> list N.

(** ASCII letters go to their capitals, the rest of ASCII has no case. *)
Definition upperCodePoint (c : N) : list N :=
  if (97 <=? c) && (c <=? 122) then [c - 32]
  else if c <? 128 then [c]
  else unicodeUpper c.

Definition toUpperCase (s : jsstring) : jsstring :=
  flat_map upperCodePoint s.
End Case.

Definition COLON : N := 58.
Definition HYPHEN : N := 45.

(** [s.replace(/[:-]/g, ':')]. *)
Definition replaceSeparators (s : jsstring) : jsstring :=
  List.map (fun c => if (c =? COLON) || (c =? HYPHEN) then COLON else c) s.

End Js.
Import Js.

(** ** Node's [crypto] and [Buffer] primitives used by the model *)

Module Crypto.

#[global] Instance byte_eq_decision : EqDecision byte := Byte.byte_eq_dec.

Definition byteOfN (n : N) : byte :=
  default Byte.x00 (Byte.of_N (n mod 256)).

(** *** Buffer.toString('hex') *)

Definition hexDigit (n : N) : N :=
  if n <? 10 then 48 + n else 87 + n.

Definition hexByte (b : byte) : jsstring :=
  let n := Byte.to_N b in [hexDigit (n / 16); hexDigit (n mod 16)].

Definition toHex (bs : list byte) : jsstring := flat_map hexByte bs.

Definition isHexDigit (c : N) : bool :=
  ((48 <=? c) && (c <=? 57)) || ((97 <=? c) && (c <=? 102)).

(** *** UTF-8, the encoding [hmac.update(string)] applies *)

Definition utf8CodePoint (c : N) : list byte :=
  if c <? 0x80 then [byteOfN c]
  else if c <? 0x800 then
    [byteOfN (0xC0 + c / 64); byteOfN (0x80 + c mod 64)]
  else if ((0xD800 <=? c) && (c <=? 0xDFFF)) || (0x10FFFF <? c) then
    [byteOfN 0xEF; byteOfN 0xBF; byteOfN 0xBD]
  else if c <? 0x10000 then
    [byteOfN (0xE0 + c / 4096); byteOfN (0x80 + (c / 64) mod 64);
     byteOfN (0x80 + c mod 64)]
  else
    [byteOfN (0xF0 + c / 262144); byteOfN (0x80 + (c / 4096) mod 64);
     byteOfN (0x80 + (c / 64) mod 64); byteOfN (0x80 + c mod 64)].

Definition utf8 (s : jsstring) : list byte := flat_map utf8CodePoint s.

(** *** SHA-256 (FIPS 180-4) on 32-bit words held in [N] *)

Definition w32 (x : N) : N := x mod 4294967296.
Definition add32 (x y : N) : N := w32 (x + y).
Definition rotr (n x : N) : N :=
  N.lor (N.shiftr x n) (w32 (N.shiftl x (32 - n))).
Definition not32 (x : N) : N := N.lxor x 4294967295.

Definition Ch (x y z : N) : N := N.lxor (N.land x y) (N.land (not32 x) z).
Definition Maj (x y z : N) : N :=
  N.lxor (N.lxor (N.land x y) (N.land x z)) (N.land y z).
Definition bigSigma0 (x : N) : N :=
  N.lxor (N.lxor (rotr 2 x) (rotr 13 x)) (rotr 22 x).
Definition bigSigma1 (x : N) : N :=
  N.lxor (N.lxor (rotr 6 x) (rotr 11 x)) (rotr 25 x).
Definition smallSigma0 (x : N) : N :=
  N.lxor (N.lxor (rotr 7 x) (rotr 18 x)) (N.shiftr x 3).
Definition smallSigma1 (x : N) : N :=
  N.lxor (N.lxor (rotr 17 x) (rotr 19 x)) (N.shiftr x 10).

(** The first 64 primes, from which the standard derives its constants. *)
Definition primes64 : list N :=
  [ 2; 3; 5; 7; 11; 13; 17; 19; 23; 29; 31; 37; 41; 43; 47; 53;
    59; 61; 67; 71; 73; 79; 83; 89; 97; 101; 103; 107; 109; 113; 127; 131;
    137; 139; 149; 151; 157; 163; 167; 173; 179; 181; 191; 193; 197; 199;
    211; 223; 227; 229; 233; 239; 241; 251; 257; 263; 269; 271; 277; 281;
    283; 293; 307; 311 ].

(** The largest [r] below [2 ^ bits] with [r ^ k <= x], found bit by bit. *)
Fixpoint rootBits (k x : N) (bits : nat) (r : N) : N :=
  match bits with
  | O => r
  | S b =>
      let r' := r + 2 ^ N.of_nat b in
      rootBits k x b (if r' ^ k <=? x then r' else r)
  end.

(** The first 32 bits of the fractional part of the [k]-th root of [p]. *)
Definition fractionalBits (k p : N) : N :=
  w32 (rootBits k (p * 2 ^ (32 * k)) 40 0).

(** Round constants: fractional parts of the cube roots of the primes. *)
Definition K256 : list N :=
  Eval vm_compute in List.map (fractionalBits 3) primes64.

(** The eight working variables, and the chaining value. *)
Record state256 := State256 { ha : N; hb : N; hc : N; hd : N;
                              he : N; hf : N; hg : N; hh : N }.

(** Initial chaining value: fractional parts of the square roots of the
    first eight primes. *)
Definition initial256 : state256 :=
  Eval vm_compute in
    let h := fractionalBits 2 in
    State256 (h 2) (h 3) (h 5) (h 7) (h 11) (h 13) (h 17) (h 19).

Definition round256 (s : state256) (kw : N * N) : state256 :=
  let t1 := add32 (add32 (add32 (add32 (hh s) (bigSigma1 (he s)))
                                (Ch (he s) (hf s) (hg s))) (fst kw)) (snd kw) in
  let t2 := add32 (bigSigma0 (ha s)) (Maj (ha s) (hb s) (hc s)) in
  State256 (add32 t1 t2) (ha s) (hb s) (hc s)
           (add32 (hd s) t1) (he s) (hf s) (hg s).

(** Message schedule: [w] holds the words produced so far, latest first. *)
Fixpoint schedule (n : nat) (w : list N) : list N :=
  match n with
  | O => w
  | S n' =>
      match w with
      | w1 :: w2 :: _ =>
          let w7 := nth 6 w 0 in
          let w15 := nth 14 w 0 in
          let w16 := nth 15 w 0 in
          schedule n'
            (add32 (add32 (add32 (smallSigma1 w2) w7) (smallSigma0 w15)) w16 :: w)
      | _ => w
      end
  end.

Fixpoint wordsOfBytes (bs : list byte) : list N :=
  match bs with
  | b0 :: b1 :: b2 :: b3 :: rest =>
      (Byte.to_N b0 * 16777216 + Byte.to_N b1 * 65536
       + Byte.to_N b2 * 256 + Byte.to_N b3) :: wordsOfBytes rest
  | _ => []
  end.

Definition bytesOfWord (w : N) : list byte :=
  [byteOfN (w / 16777216); byteOfN (w / 65536); byteOfN (w / 256); byteOfN w].

Definition compress (s : state256) (block : list N) : state256 :=
  let w := rev (schedule 48 (rev block)) in
  let r := fold_left round256 (combine K256 w) s in
  State256 (add32 (ha s) (ha r)) (add32 (hb s) (hb r))
           (add32 (hc s) (hc r)) (add32 (hd s) (hd r))
           (add32 (he s) (he r)) (add32 (hf s) (hf r))
           (add32 (hg s) (hg r)) (add32 (hh s) (hh r)).

Fixpoint chunks16 (fuel : nat) (ws : list N) : list (list N) :=
  match fuel, ws with
  | S f, _ :: _ => firstn 16 ws :: chunks16 f (skipn 16 ws)
  | _, _ => []
  end.

Definition pad256 (msg : list byte) : list byte :=
  let len := N.of_nat (length msg) in
  let zeros := N.to_nat ((119 - len mod 64) mod 64) in
  msg ++ [byteOfN 0x80] ++ repeat Byte.x00 zeros
      ++ bytesOfWord ((len * 8) / 4294967296) ++ bytesOfWord (len * 8).

Definition sha256 (msg : list byte) : list byte :=
  let ws := wordsOfBytes (pad256 msg) in
  let s := fold_left compress (chunks16 (length ws) ws) initial256 in
  flat_map bytesOfWord
    [ha s; hb s; hc s; hd s; he s; hf s; hg s; hh s].

(** *** HMAC (RFC 2104) over SHA-256 *)

Definition xorPad (pad : N) (key : list byte) : list byte :=
  List.map (fun b => byteOfN (N.lxor (Byte.to_N b) pad)) key.

Definition hmacKey (key : list byte) : list byte :=
  let k := if (64 <? length key)%nat then sha256 key else key in
  k ++ repeat Byte.x00 (64 - length k)%nat.

Definition hmacSha256Bytes (key msg : list byte) : list byte :=
  let k := hmacKey key in
  sha256 (xorPad 0x5c k ++ sha256 (xorPad 0x36 k ++ msg)).

(** [crypto.createHmac('sha256', key).update(msg).digest()]. *)
Definition hmacSha256 (key msg : jsstring) : list byte :=
  hmacSha256Bytes (utf8 key) (utf8 msg).

(** [crypto.timingSafeEqual(a, b)]: a [RangeError] on buffers of
    different lengths, otherwise whether all bytes agree. *)
Definition timingSafeEqual (a b : list byte) : outcome bool :=
  if (length a =? length b)%nat
  then Return (bool_decide (a = b))
  else Throw (str "Input buffers must have the same byte length").

End Crypto.

(** ** models/device.js *)

Module DeviceModel.

Inductive Status := active | suspended | revoked.

#[global] Instance Status_eq_dec : EqDecision Status.
Proof. solve_decision. Defined.

Definition statusName (s : Status) : jsstring :=
  match s with
  | active => str "active"
  | suspended => str "suspended"
  | revoked => str "revoked"
  end.

(** One record of [this.devices].  [revokedAt] and [revokeReason] are
    absent until [revokeDevice] assigns them; [authCount] is a counter of
    small integers. *)
Record Device := mkDevice {
  deviceId : jsstring;
  secret : jsstring;
  status : Status;
  registeredAt : jsstring;
  lastAuthAt : option jsstring;
  authCount : Z;
  metadata : gmap jsstring value;
  revokedAt : option jsstring;
  revokeReason : option jsstring
}.

(** The in-memory store [this.devices]: the object's own properties. *)
Abbreviation registry := (gmap jsstring Device).

(** What reading [this.devices[deviceId]] yields.  The store is a plain
    object ([{}], or what [JSON.parse] returned), so a name that is not an
    own property is still looked up on [Object.prototype], and the built-in
    found there is truthy and has no [status].  Only the store's own records
    are tracked: the writes of [revokeDevice] and [updateLastAuth] through
    an inherited name land on that built-in object, outside the registry. *)
Inductive slot :=
| Own (d : Device)
| Inherited
| Missing.

Definition getSlot (devices : registry) (id : jsstring) : slot :=
  match devices !! id with
  | Some d => Own d
  | None => if bool_decide (id ∈ protoKeys) then Inherited else Missing
  end.

(** [{ deviceId, secret }], the value [registerDevice] resolves to. *)
Record Credentials := mkCredentials {
  credDeviceId : jsstring;
  credSecret : jsstring
}.

Definition FIRMWARE_VERSION : jsstring := str "firmwareVersion".
Definition HARDWARE_VERSION : jsstring := str "hardwareVersion".
Definition UNKNOWN : value := VStr (str "unknown").

(** The [metadata] literal of a new record: the two defaulted keys, then
    the spread of the caller's mapping over them. *)
Definition buildMetadata (metadata : gmap jsstring value) : gmap jsstring value :=
  metadata ∪
  <[FIRMWARE_VERSION := orElse (metadata !! FIRMWARE_VERSION) UNKNOWN]>
    (<[HARDWARE_VERSION := orElse (metadata !! HARDWARE_VERSION) UNKNOWN]> ∅).

Definition ALREADY_REGISTERED : jsstring := str "Device already registered".
Definition NOT_FOUND : jsstring := str "Device not found".

(** [registerDevice(deviceId, metadata = {})].  [random] is what
    [crypto.randomBytes(32)] returned and [now] is
    [new Date().toISOString()]. *)
Definition registerDevice (devices : registry) (id : jsstring)
    (metadata : option (gmap jsstring value)) (random : list byte)
    (now : jsstring) : outcome Credentials * registry :=
  match getSlot devices id with
  | Own _ | Inherited => (Throw ALREADY_REGISTERED, devices)
  | Missing =>
      let secret := Crypto.toHex random in
      let device :=
        {| deviceId := id;
           secret := secret;
           status := active;
           registeredAt := now;
           lastAuthAt := None;
           authCount := 0;
           metadata := buildMetadata (default ∅ metadata);
           revokedAt := None;
           revokeReason := None |} in
      (Return (mkCredentials id secret), <[id := device]> devices)
  end.

(** STEP 3 of [verifyDevice]: both secrets are keyed-hashed with
    [SERVER_SECRET], which the environment provides, and the digests are
    compared with [crypto.timingSafeEqual]. *)
Definition verifySecret (serverSecret provided stored : jsstring) : outcome bool :=
  let hash1 := Crypto.hmacSha256 serverSecret provided in
  let hash2 := Crypto.hmacSha256 serverSecret stored in
  Crypto.timingSafeEqual hash1 hash2.

(** The line [verifyDevice] writes to the console, by its reason. *)
Inductive AuthLog :=
| UnknownDevice (id : jsstring)
| InactiveDevice (id : jsstring)
| InvalidSecret (id : jsstring)
| AuthVerified (id : jsstring).

(** [verifyDevice(deviceId, providedSecret)]: the device, or [null]. *)
Definition verifyDevice (serverSecret : jsstring) (devices : registry)
    (id providedSecret : jsstring) : outcome (AuthLog * option Device) :=
  match getSlot devices id with
  | Missing => Return (UnknownDevice id, None)
  | Inherited => Return (InactiveDevice id, None)
  | Own device =>
      if bool_decide (status device ≠ active)
      then Return (InactiveDevice id, None)
      else
        match verifySecret serverSecret providedSecret (secret device) with
        | Throw e => Throw e
        | Return false => Return (InvalidSecret id, None)
        | Return true => Return (AuthVerified id, Some device)
        end
  end.

(** [updateLastAuth(deviceId)]. *)
Definition updateLastAuth (devices : registry) (id now : jsstring) : registry :=
  match getSlot devices id with
  | Own d =>
      <[id := {| deviceId := deviceId d;
                 secret := secret d;
                 status := status d;
                 registeredAt := registeredAt d;
                 lastAuthAt := Some now;
                 authCount := (authCount d + 1)%Z;
                 metadata := metadata d;
                 revokedAt := revokedAt d;
                 revokeReason := revokeReason d |}]> devices
  | Inherited | Missing => devices
  end.

(** [revokeDevice(deviceId, reason = '')]. *)
Definition revokeDevice (devices : registry) (id : jsstring)
    (reason : option jsstring) (now : jsstring) : outcome unit * registry :=
  match getSlot devices id with
  | Missing => (Throw NOT_FOUND, devices)
  | Inherited => (Return tt, devices)
  | Own d =>
      (Return tt,
       <[id := {| deviceId := deviceId d;
                  secret := secret d;
                  status := revoked;
                  registeredAt := registeredAt d;
                  lastAuthAt := lastAuthAt d;
                  authCount := authCount d;
                  metadata := metadata d;
                  revokedAt := Some now;
                  revokeReason := Some (default [] reason) |}]> devices)
  end.

(** The value of one property of a device object. *)
Inductive field :=
| FString (s : jsstring)
| FNumber (z : Z)
| FNull
| FObject (m : gmap jsstring value).

(** A device as the object it is: its own enumerable properties, in the
    order they were created. *)
Definition ownProperties (d : Device) : list (jsstring * field) :=
  [ (str "deviceId", FString (deviceId d));
    (str "secret", FString (secret d));
    (str "status", FString (statusName (status d)));
    (str "registeredAt", FString (registeredAt d));
    (str "lastAuthAt", from_option FString FNull (lastAuthAt d));
    (str "authCount", FNumber (authCount d));
    (str "metadata", FObject (metadata d)) ]
  ++ from_option (fun t => [(str "revokedAt", FString t)]) [] (revokedAt d)
  ++ from_option (fun r => [(str "revokeReason", FString r)]) [] (revokeReason d).

(** [const { [name]: _, ...rest } = props]. *)
Definition objectRest (name : jsstring) (props : list (jsstring * field))
  : list (jsstring * field) :=
  List.filter (fun p => negb (bool_decide (fst p = name))) props.

(** [getDevice(deviceId)]: the device without its secret, or [null]. *)
Definition getDevice (devices : registry) (id : jsstring)
  : option (list (jsstring * field)) :=
  match getSlot devices id with
  | Missing => None
  | Inherited => Some (objectRest (str "secret") [])
  | Own device => Some (objectRest (str "secret") (ownProperties device))
  end.

(** [Object.keys(this.devices)]. *)
Definition keys (devices : registry) : list jsstring :=
  List.map fst (map_to_list devices).

(** [listDevices()]. *)
Definition listDevices (devices : registry)
  : list (option (list (jsstring * field))) :=
  List.map (fun id => getDevice devices id) (keys devices).

End DeviceModel.
Import DeviceModel.

(** ** The HTTP responses of the two routers *)

Module Http.

(** The custom claims the token route embeds in a token. *)
Record Claims := mkClaims {
  deviceType : jsstring;
  claimDeviceId : jsstring;
  permissions : list jsstring;
  firmwareVersion : option value;
  authTimestamp : Z
}.

(** The JSON bodies the routes send. *)
Inductive Body :=
| ErrorBody (error : jsstring) (message : option jsstring)
| TokenBody (customToken : jsstring) (expiresIn : Z) (message : jsstring)
| RegisteredBody (message : jsstring) (device : Credentials)
| RevokedBody (message : jsstring) (deviceId : jsstring)
| DeviceListBody (count : nat) (devices : list (option (list (jsstring * field))))
| DeviceBody (device : list (jsstring * field)).

Record Response := mkResponse {
  statusCode : Z;
  body : Body
}.

(** [res.json(b)] answers with status 200. *)
Definition json (b : Body) : Response := mkResponse 200 b.

End Http.
Import Http.

(** ** routes/auth.js *)

Module AuthRoutes.

(** The fields read from [req.body]; [None] is [undefined]. *)
Record TokenRequest := mkTokenRequest {
  reqDeviceId : option jsstring;
  reqSecret : option jsstring;
  reqFirmwareVersion : option value
}.

Section Router.
(** Unicode's uppercase mapping beyond ASCII. *)
Variable unicodeUpper : N -> list N.
(** [process.env.SERVER_SECRET]. *)
Variable SERVER_SECRET : jsstring.
(** Whether [process.env.NODE_ENV === 'development']. *)
Variable development : bool.
(** [admin.auth().createCustomToken(uid, claims)], the external issuer. *)
Variable createCustomToken : jsstring -> Claims -> outcome jsstring.

(** [deviceId.toUpperCase().replace(/[:-]/g, ':')]. *)
Definition normalizedDeviceId (deviceId : jsstring) : jsstring :=
  replaceSeparators (toUpperCase unicodeUpper deviceId).

(** [firmwareVersion || device.metadata.firmwareVersion]. *)
Definition claimedFirmware (hint : option value) (device : Device) : option value :=
  match hint with
  | Some v => if truthy v then Some v else metadata device !! FIRMWARE_VERSION
  | None => metadata device !! FIRMWARE_VERSION
  end.

Definition missingFields : Response :=
  mkResponse 400
    (ErrorBody (str "Missing required fields: deviceId, secret") None).

Definition invalidCredentials : Response :=
  mkResponse 401 (ErrorBody (str "Invalid credentials") None).

(** The [catch] block of the token route. *)
Definition failedToCreateToken (errorMessage : jsstring) : Response :=
  mkResponse 500
    (ErrorBody (str "Failed to create token")
               (if development then Some errorMessage else None)).

(** [POST /auth/token].  [nowMs] is [Date.now()] and [nowIso] is
    [new Date().toISOString()]; the result is the response, the registry
    after the request, and the lines of the authentication log. *)
Definition postToken (devices : registry) (req : TokenRequest)
    (nowMs : Z) (nowIso : jsstring) : Response * registry * list AuthLog :=
  if falsyStr (reqDeviceId req) || falsyStr (reqSecret req)
  then (missingFields, devices, [])
  else
    let id := normalizedDeviceId (default [] (reqDeviceId req)) in
    match verifyDevice SERVER_SECRET devices id (default [] (reqSecret req)) with
    | Throw e => (failedToCreateToken e, devices, [])
    | Return (line, None) => (invalidCredentials, devices, [line])
    | Return (line, Some device) =>
        let additionalClaims :=
          {| deviceType := str "esp8266";
             claimDeviceId := id;
             permissions := [str "switches:read"; str "switches:write"];
             firmwareVersion := claimedFirmware (reqFirmwareVersion req) device;
             authTimestamp := nowMs |} in
        match createCustomToken id additionalClaims with
        | Throw e => (failedToCreateToken e, devices, [line])
        | Return customToken =>
            (json (TokenBody customToken 3600 (str "Authentication successful")),
             updateLastAuth devices id nowIso,
             [line])
        end
    end.

End Router.
End AuthRoutes.
Import AuthRoutes.

(** ** routes/admin.js *)

Module AdminRoutes.

Definition missingDeviceId : Response :=
  mkResponse 400 (ErrorBody (str "Missing deviceId") None).

(** [POST /admin/register]. *)
Definition postRegister (devices : registry) (deviceId : option jsstring)
    (metadata : option (gmap jsstring value)) (random : list byte)
    (now : jsstring) : Response * registry :=
  if falsyStr deviceId then (missingDeviceId, devices)
  else
    match registerDevice devices (default [] deviceId) metadata random now with
    | (Return device, devices') =>
        (json (RegisteredBody (str "Device registered successfully") device),
         devices')
    | (Throw e, devices') => (mkResponse 400 (ErrorBody e None), devices')
    end.

(** [POST /admin/revoke]. *)
Definition postRevoke (devices : registry) (deviceId reason : option jsstring)
    (now : jsstring) : Response * registry :=
  if falsyStr deviceId then (missingDeviceId, devices)
  else
    match revokeDevice devices (default [] deviceId) reason now with
    | (Return _, devices') =>
        (json (RevokedBody (str "Device revoked successfully")
                           (default [] deviceId)),
         devices')
    | (Throw e, devices') => (mkResponse 400 (ErrorBody e None), devices')
    end.

(** [GET /admin/devices]. *)
Definition getDevices (devices : registry) : Response :=
  let views := listDevices devices in
  json (DeviceListBody (length views) views).

(** [GET /admin/devices/:deviceId]. *)
Definition getDeviceById (devices : registry) (deviceId : jsstring) : Response :=
  match getDevice devices deviceId with
  | None => mkResponse 404 (ErrorBody (str "Device not found") None)
  | Some device => json (DeviceBody device)
  end.

End AdminRoutes.
Import AdminRoutes.

(** ** Whole-server runs *)

Module Server.

(** A case table that leaves every code point beyond ASCII as it is. *)
Definition caselessBeyondAscii (c : N) : list N := [c].

(** One call into the registry, from the admin router, the token router or
    the model's own interface.  A token request carries the answer of the
    external issuer it meets. *)
Inductive Call :=
| CallRegister (id : jsstring) (metadata : option (gmap jsstring value))
               (random : list byte) (now : jsstring)
| CallVerify (id providedSecret : jsstring)
| CallUpdateLastAuth (id now : jsstring)
| CallRevoke (id : jsstring) (reason : option jsstring) (now : jsstring)
| CallGet (id : jsstring)
| CallList
| PostToken (createCustomToken : jsstring -> Claims -> outcome jsstring)
            (req : TokenRequest) (nowMs : Z) (nowIso : jsstring)
| PostRegister (deviceId : option jsstring)
               (metadata : option (gmap jsstring value))
               (random : list byte) (now : jsstring)
| PostRevoke (deviceId reason : option jsstring) (now : jsstring)
| GetDevices
| GetDeviceById (deviceId : jsstring).

Section Run.
Variable unicodeUpper : N -> list N.
Variable SERVER_SECRET : jsstring.
Variable development : bool.

(** The registry a call leaves behind. *)
Definition exec (devices : registry) (c : Call) : registry :=
  match c with
  | CallRegister id metadata random now =>
      snd (registerDevice devices id metadata random now)
  | CallUpdateLastAuth id now => updateLastAuth devices id now
  | CallRevoke id reason now => snd (revokeDevice devices id reason now)
  | PostToken issuer req nowMs nowIso =>
      snd (fst (postToken unicodeUpper SERVER_SECRET development issuer
                          devices req nowMs nowIso))
  | PostRegister deviceId metadata random now =>
      snd (postRegister devices deviceId metadata random now)
  | PostRevoke deviceId reason now =>
      snd (postRevoke devices deviceId reason now)
  | CallVerify _ _ | CallGet _ | CallList | GetDevices | GetDeviceById _ =>
      devices
  end.

Definition execAll (devices : registry) (calls : list Call) : registry :=
  fold_left exec calls devices.

End Run.

(** The registry holds a revoked record under [id], with secret [s]. *)
Definition revokedIn (devices : registry) (id s : jsstring) : Prop :=
  ∃ d, devices !! id = Some d ∧ status d = revoked ∧ secret d = s.

(** The log lines of the three ways a verification fails. *)
Definition isFailure (line : AuthLog) : bool :=
  match line with
  | UnknownDevice _ | InactiveDevice _ | InvalidSecret _ => true
  | AuthVerified _ => false
  end.

(** The property names of a device view. *)
Definition fieldNames (view : list (jsstring * field)) : list jsstring :=
  List.map fst view.

(** *** Sample data *)

Definition sampleId : jsstring := str "AA:BB:CC:DD:EE:FF".
Definition sampleKey : jsstring := str "0123456789abcdef0123456789abcdef".
Definition sampleNow : jsstring := str "2024-02-01T00:00:00.000Z".

Definition sampleDevice : Device :=
  {| deviceId := sampleId;
     secret := Crypto.toHex (repeat Byte.x2a 32);
     status := active;
     registeredAt := str "2024-01-15T10:30:00.000Z";
     lastAuthAt := Some (str "2024-01-16T08:00:00.000Z");
     authCount := 3;
     metadata := buildMetadata {[ str "location" := VStr (str "Living Room") ]};
     revokedAt := None;
     revokeReason := None |}.

Definition sampleRegistry : registry := {[ sampleId := sampleDevice ]}.

(** An issuer that is up, and one that is down. *)
Definition issuerUp (uid : jsstring) (_ : Claims) : outcome jsstring :=
  Return (str "token-for-" ++ uid).
Definition issuerDown (_ : jsstring) (_ : Claims) : outcome jsstring :=
  Throw (str "auth/network-request-failed").

End Server.
Import Server.

(** ** routes/auth.js: the verification route *)

Module VerifyRoute.

(** What [admin.auth().verifyIdToken] resolves to: the decoded token, of
    which the route reads [uid]. *)
Record DecodedToken := mkDecodedToken {
  uid : jsstring;
  decodedClaims : list (jsstring * value)
}.

(** The JSON bodies of [POST /auth/verify]. *)
Inductive VerifyBody :=
| VerifyMissing (error : jsstring)
| VerifyValid (deviceId : jsstring) (claims : DecodedToken)
| VerifyInvalid (error : jsstring).

(** [POST /auth/verify]: the status and the body sent. *)
Definition postVerify (verifyIdToken : jsstring -> outcome DecodedToken)
    (idToken : option jsstring) : Z * VerifyBody :=
  if falsyStr idToken then (400%Z, VerifyMissing (str "Missing idToken"))
  else
    match verifyIdToken (default [] idToken) with
    | Return decodedToken => (200%Z, VerifyValid (uid decodedToken) decodedToken)
    | Throw message => (401%Z, VerifyInvalid message)
    end.

End VerifyRoute.
Import VerifyRoute.

(** ** Shapes of identifiers and of registries *)

Module Shape.

Definition lowerAscii (c : N) : bool := (97 <=? c) && (c <=? 122).

(** An ASCII code point that is neither a small letter nor a hyphen, as
    in the digits, capitals and colons of a MAC address. *)
Definition canonicalCodePoint (c : N) : bool :=
  (c <? 128) && negb (lowerAscii c) && negb (c =? HYPHEN).

(** What holds of a record stored under key [k] in a registry that the
    server built up from an empty one. *)
Record wellFormedDevice (k : jsstring) (d : Device) : Prop := {
  wf_key : deviceId d = k;
  wf_own_name : k ∉ protoKeys;
  wf_status : status d ≠ suspended;
  wf_revoked : status d = revoked ↔ is_Some (revokedAt d);
  wf_reason : is_Some (revokedAt d) ↔ is_Some (revokeReason d);
  wf_count : (0 <= authCount d)%Z;
  wf_last : lastAuthAt d = None ↔ authCount d = 0%Z;
  wf_firmware : is_Some (metadata d !! FIRMWARE_VERSION);
  wf_hardware : is_Some (metadata d !! HARDWARE_VERSION);
  wf_secret : Forall (λ c, Crypto.isHexDigit c = true) (secret d)
}.

Definition wellFormed (devices : registry) : Prop :=
  ∀ k d, devices !! k = Some d → wellFormedDevice k d.

(** How a record may differ from an earlier state of itself. *)
Record evolvesTo (d d' : Device) : Prop := {
  ev_deviceId : deviceId d' = deviceId d;
  ev_secret : secret d' = secret d;
  ev_registeredAt : registeredAt d' = registeredAt d;
  ev_metadata : metadata d' = metadata d;
  ev_count : (authCount d <= authCount d')%Z;
  ev_status : status d' = status d ∨ status d' = revoked;
  ev_terminal : status d = revoked → status d' = revoked
}.

(** A token request for the device [id] that carries a secret matching
    [stored] and meets an issuer that answers. *)
Definition successfulTokenCall (unicodeUpper : N -> list N)
    (SERVER_SECRET id stored : jsstring) (c : Call) : Prop :=
  ∃ issuer raw provided hint nowMs nowIso,
    c = PostToken issuer (mkTokenRequest (Some raw) (Some provided) hint)
                  nowMs nowIso
    ∧ raw ≠ [] ∧ provided ≠ []
    ∧ normalizedDeviceId unicodeUpper raw = id
    ∧ Crypto.hmacSha256 SERVER_SECRET provided
      = Crypto.hmacSha256 SERVER_SECRET stored
    ∧ ∀ claims, ∃ customToken, issuer id claims = Return customToken.

(** The device [verifyDevice] returns for [id] and [provided]: the record
    stored under [id], when it is active and the digests agree. *)
Definition accepts (SERVER_SECRET : jsstring) (devices : registry)
    (id provided : jsstring) (device : Device) : Prop :=
  devices !! id = Some device
  ∧ status device = active
  ∧ Crypto.hmacSha256 SERVER_SECRET provided
    = Crypto.hmacSha256 SERVER_SECRET (secret device).

(** The [additionalClaims] of the token route. *)
Definition additionalClaims (id : jsstring) (hint : option value)
    (device : Device) (nowMs : Z) : Claims :=
  {| deviceType := str "esp8266";
     claimDeviceId := id;
     permissions := [str "switches:read"; str "switches:write"];
     firmwareVersion := claimedFirmware hint device;
     authTimestamp := nowMs |}.

(** A sample run: two registrations, a token, a revocation and a late
    recording. *)
Definition sampleRun : list Call :=
  [ PostRegister (Some sampleId) (Some ∅) (repeat Byte.x2a 32) sampleNow;
    PostRegister (Some (str "5C:CF:7F:12:34:56")) None (repeat Byte.x17 32)
                 sampleNow;
    PostToken issuerUp
              (mkTokenRequest (Some (str "aa-bb-cc-dd-ee-ff"))
                              (Some (Crypto.toHex (repeat Byte.x2a 32))) None)
              1706745600000%Z sampleNow;
    PostRevoke (Some sampleId) (Some (str "lost")) sampleNow;
    CallUpdateLastAuth sampleId sampleNow ].

End Shape.
Import Shape.

(** ** The routes on request bodies of any JSON shape *)

(** [express.json()] hands the routes whatever JSON the client sent, and
    the routes test their fields for truthiness only.  The token route and
    the model it calls are given here on fields of any shape and with a
    server key that may be unset; on string fields and with a key they are
    [postToken] and [verifyDevice] above. *)

Module Raw.

(** A JSON value.  Of a number in [deviceId] or [secret] the code observes
    only whether it is zero. *)
#[warnings="-register-all"] Inductive jsonValue :=
| JScalar (v : value)
| JArray (items : list jsonValue)
| JObject (members : list (jsstring * jsonValue)).

Definition JString (s : jsstring) : jsonValue := JScalar (VStr s).

(** [!x] for a field of [req.body]; [None] is [undefined], and arrays and
    objects are truthy. *)
Definition falsy (x : option jsonValue) : bool :=
  match x with
  | None => true
  | Some (JScalar v) => negb (truthy v)
  | Some (JArray _) | Some (JObject _) => false
  end.

Record RawTokenRequest := mkRawTokenRequest {
  rawDeviceId : option jsonValue;
  rawSecret : option jsonValue;
  rawFirmwareVersion : option value
}.

(** The [metadata] of a registration request: absent, [null], or an
    object of scalars. *)
Inductive RawMetadata :=
| MetadataAbsent
| MetadataNull
| MetadataObject (m : gmap jsstring value).

Section Routes.
Variable unicodeUpper : N -> list N.
(** [process.env.SERVER_SECRET], [None] when the variable is not set. *)
Variable SERVER_SECRET : option jsstring.
Variable development : bool.
Variable createCustomToken : jsstring -> Claims -> outcome jsstring.
(** The texts of the runtime's [TypeError]s: for [createHmac] with an
    undefined key, for [hmac.update] with a value that is no string, for
    calling [toUpperCase] on a value that has no such method, and for
    reading a property of [null]. *)
Variable invalidKey : jsstring.
Variable invalidData : jsonValue -> jsstring.
Variable notAFunction : jsonValue -> jsstring.
Variable nullRead : jsstring.

(** [verifyDevice(deviceId, providedSecret)] on a secret of any shape. *)
Definition verifyDeviceRaw (devices : registry) (id : jsstring)
    (providedSecret : jsonValue) : outcome (AuthLog * option Device) :=
  match getSlot devices id with
  | Missing => Return (UnknownDevice id, None)
  | Inherited => Return (InactiveDevice id, None)
  | Own device =>
      if bool_decide (status device ≠ active)
      then Return (InactiveDevice id, None)
      else
        match SERVER_SECRET, providedSecret with
        | None, _ => Throw invalidKey
        | Some key, JScalar (VStr provided) =>
            match verifySecret key provided (secret device) with
            | Throw e => Throw e
            | Return false => Return (InvalidSecret id, None)
            | Return true => Return (AuthVerified id, Some device)
            end
        | Some _, other => Throw (invalidData other)
        end
  end.

(** [POST /auth/token] on a body of any shape. *)
Definition postTokenRaw (devices : registry) (req : RawTokenRequest)
    (nowMs : Z) (nowIso : jsstring) : Response * registry * list AuthLog :=
  if falsy (rawDeviceId req) || falsy (rawSecret req)
  then (missingFields, devices, [])
  else
    match rawDeviceId req with
    | Some (JScalar (VStr deviceId)) =>
        let id := normalizedDeviceId unicodeUpper deviceId in
        match verifyDeviceRaw devices id
                (default (JScalar VNull) (rawSecret req)) with
        | Throw e => (failedToCreateToken development e, devices, [])
        | Return (line, None) => (invalidCredentials, devices, [line])
        | Return (line, Some device) =>
            let additionalClaims :=
              {| deviceType := str "esp8266";
                 claimDeviceId := id;
                 permissions := [str "switches:read"; str "switches:write"];
                 firmwareVersion :=
                   claimedFirmware (rawFirmwareVersion req) device;
                 authTimestamp := nowMs |} in
            match createCustomToken id additionalClaims with
            | Throw e => (failedToCreateToken development e, devices, [line])
            | Return customToken =>
                (json (TokenBody customToken 3600
                                 (str "Authentication successful")),
                 updateLastAuth devices id nowIso,
                 [line])
            end
        end
    | Some other =>
        (failedToCreateToken development (notAFunction other), devices, [])
    | None => (missingFields, devices, [])
    end.

(** [registerDevice(deviceId, metadata)] with a [metadata] that may be
    [null]: the guard comes first, and reading [metadata.firmwareVersion]
    of [null] throws before anything is stored. *)
Definition registerDeviceRaw (devices : registry) (id : jsstring)
    (metadata : RawMetadata) (random : list byte) (now : jsstring)
  : outcome Credentials * registry :=
  match metadata with
  | MetadataAbsent => registerDevice devices id None random now
  | MetadataObject m => registerDevice devices id (Some m) random now
  | MetadataNull =>
      match getSlot devices id with
      | Own _ | Inherited => (Throw ALREADY_REGISTERED, devices)
      | Missing => (Throw nullRead, devices)
      end
  end.

(** [POST /admin/register] with such a [metadata]. *)
Definition postRegisterRaw (devices : registry) (deviceId : option jsstring)
    (metadata : RawMetadata) (random : list byte) (now : jsstring)
  : Response * registry :=
  if falsyStr deviceId then (missingDeviceId, devices)
  else
    match registerDeviceRaw devices (default [] deviceId) metadata random now with
    | (Return device, devices') =>
        (json (RegisteredBody (str "Device registered successfully") device),
         devices')
    | (Throw e, devices') => (mkResponse 400 (ErrorBody e None), devices')
    end.

End Routes.

(** A string is a JSON string, an absent field is absent. *)
Definition ofString (s : option jsstring) : option jsonValue := JString <$> s.

(** A call that makes no write through a name inherited from
    [Object.prototype].  While every call of a run is such, the built-ins
    are as the runtime made them. *)
Definition writesOwn (c : Call) : Prop :=
  match c with
  | CallUpdateLastAuth id _ | CallRevoke id _ _ => id ∉ protoKeys
  | PostRevoke deviceId _ _ => default [] deviceId ∉ protoKeys
  | _ => True
  end.

(** The bound below which every integer, and its successor, is a number
    the runtime counts exactly. *)
Definition MAX_COUNT : Z := 9007199254740992.

End Raw.
Import Raw.

(** * Properties *)

(** ** Normalization *)

Section NormalizeFacts.
Variable unicodeUpper : N -> list N.
(** Uppercasing yields code points that are their own uppercase. *)
Hypothesis upper_stable :
  ∀ c d, 128 <= c → In d (unicodeUpper c) → upperCodePoint unicodeUpper d = [d].

Lemma upperCodePoint_stable c d :
  In d (upperCodePoint unicodeUpper c) → upperCodePoint unicodeUpper d = [d].
Proof using upper_stable.
  unfold upperCodePoint at 1.
  destruct ((97 <=? c) && (c <=? 122)) eqn:Hlow.
  - apply andb_true_iff in Hlow as [H1%N.leb_le H2%N.leb_le].
    intros [<- | []]. unfold upperCodePoint.
    replace ((97 <=? c - 32) && (c - 32 <=? 122)) with false
      by (symmetry; apply andb_false_iff; left; apply N.leb_gt; lia).
    replace (c - 32 <? 128) with true by (symmetry; apply N.ltb_lt; lia).
    reflexivity.
  - destruct (c <? 128) eqn:Hc.
    + intros [<- | []]. unfold upperCodePoint. now rewrite Hlow, Hc.
    + apply N.ltb_ge in Hc. now apply upper_stable.
Qed.

Lemma toUpperCase_fixed s :
  Forall (λ d, upperCodePoint unicodeUpper d = [d]) s →
  toUpperCase unicodeUpper s = s.
Proof.
  unfold toUpperCase. induction 1 as [| d s Hd _ IH]; simpl.
  - reflexivity.
  - now rewrite Hd, IH.
Qed.

Lemma toUpperCase_stable s :
  Forall (λ d, upperCodePoint unicodeUpper d = [d]) (toUpperCase unicodeUpper s).
Proof using upper_stable.
  apply List.Forall_forall. intros d Hd.
  apply in_flat_map in Hd as (c & _ & Hd).
  now apply upperCodePoint_stable with c.
Qed.

Lemma replaceSeparators_stable s :
  Forall (λ d, upperCodePoint unicodeUpper d = [d]) s →
  Forall (λ d, upperCodePoint unicodeUpper d = [d]) (replaceSeparators s).
Proof.
  unfold replaceSeparators. induction 1 as [| d s Hd _ IH]; simpl; constructor; auto.
  destruct ((d =? COLON) || (d =? HYPHEN)); [reflexivity | exact Hd].
Qed.

Lemma replaceSeparators_idempotent s :
  replaceSeparators (replaceSeparators s) = replaceSeparators s.
Proof.
  unfold replaceSeparators. rewrite List.map_map. apply List.map_ext. intros c.
  destruct ((c =? COLON) || (c =? HYPHEN)) eqn:Hc; [reflexivity | now rewrite Hc].
Qed.

(** C3: normalization (uppercase, then every "-" replaced by ":") is a
    function of its argument alone, it is idempotent on every string, and
    it sends the two spellings "5c-cf-7f-12-34-56" and "5C:CF:7F:12:34:56"
    of one MAC address to the same canonical identifier. *)
Theorem normalize_idempotent_and_insensitive :
  (∀ x y, x = y → normalizedDeviceId unicodeUpper x = normalizedDeviceId unicodeUpper y)
  ∧ (∀ x, normalizedDeviceId unicodeUpper (normalizedDeviceId unicodeUpper x)
          = normalizedDeviceId unicodeUpper x)
  ∧ normalizedDeviceId unicodeUpper (str "5c-cf-7f-12-34-56")
    = normalizedDeviceId unicodeUpper (str "5C:CF:7F:12:34:56").
Proof using upper_stable.
  split; [| split].
  - now intros x y ->.
  - intros x. unfold normalizedDeviceId.
    rewrite (toUpperCase_fixed (replaceSeparators _)).
    + apply replaceSeparators_idempotent.
    + apply replaceSeparators_stable, toUpperCase_stable.
  - reflexivity.
Qed.

End NormalizeFacts.

Lemma caselessBeyondAscii_stable :
  ∀ c d, 128 <= c → In d (caselessBeyondAscii c) →
         upperCodePoint caselessBeyondAscii d = [d].
Proof.
  intros c d Hc [<- | []]. unfold upperCodePoint.
  replace (c <? 128) with false by (symmetry; apply N.ltb_ge; lia).
  replace ((97 <=? c) && (c <=? 122)) with false
    by (symmetry; apply andb_false_iff; right; apply N.leb_gt; lia).
  reflexivity.
Qed.

Lemma normalize_idempotent_and_insensitive_witness :
  normalizedDeviceId caselessBeyondAscii
    (normalizedDeviceId caselessBeyondAscii (str "5c-cf-7f-12-34-56"))
  = str "5C:CF:7F:12:34:56".
Proof.
  rewrite (proj1 (proj2 (normalize_idempotent_and_insensitive
                           caselessBeyondAscii caselessBeyondAscii_stable))).
  vm_compute. reflexivity.
Defined.

(** ** Secret verification *)

Lemma sha256_length msg : length (Crypto.sha256 msg) = 32%nat.
Proof. reflexivity. Qed.

Lemma hmacSha256_length key msg : length (Crypto.hmacSha256 key msg) = 32%nat.
Proof. apply sha256_length. Qed.

Lemma timingSafeEqual_same_length a b :
  length a = length b →
  Crypto.timingSafeEqual a b = Return (bool_decide (a = b)).
Proof.
  intros H. unfold Crypto.timingSafeEqual.
  now rewrite H, Nat.eqb_refl.
Qed.

Lemma verifySecret_total serverSecret provided stored :
  verifySecret serverSecret provided stored
  = Return (bool_decide (Crypto.hmacSha256 serverSecret provided
                         = Crypto.hmacSha256 serverSecret stored)).
Proof.
  unfold verifySecret. apply timingSafeEqual_same_length.
  now rewrite !hmacSha256_length.
Qed.



(** Verification at work: a secret of another length is rejected without
    an error, the stored secret itself is accepted. *)
Example verifySecret_lengths_differ :
  verifySecret (str "server-key") (str "abc") (str "abcd") = Return false
  ∧ verifySecret (str "server-key") (str "abcd") (str "abcd") = Return true.
Proof. split; vm_compute; reflexivity. Qed.

(** ** Registry operations *)

Lemma getSlot_own (devices : registry) id d :
  devices !! id = Some d → getSlot devices id = Own d.
Proof. intros H. unfold getSlot. now rewrite H. Qed.

Lemma getSlot_own_inv (devices : registry) id d :
  getSlot devices id = Own d → devices !! id = Some d.
Proof.
  unfold getSlot. destruct (devices !! id); [congruence |].
  now destruct (bool_decide _).
Qed.

Lemma registerDevice_other devices id metadata random now other :
  other ≠ id →
  snd (registerDevice devices id metadata random now) !! other = devices !! other.
Proof.
  intros Hne. unfold registerDevice.
  destruct (getSlot devices id); simpl; try reflexivity.
  now rewrite lookup_insert_ne.
Qed.

Lemma registerDevice_existing devices id d metadata random now :
  devices !! id = Some d →
  registerDevice devices id metadata random now = (Throw ALREADY_REGISTERED, devices).
Proof. intros H. unfold registerDevice. now rewrite (getSlot_own _ _ _ H). Qed.

Lemma updateLastAuth_other devices id now other :
  other ≠ id → updateLastAuth devices id now !! other = devices !! other.
Proof.
  intros Hne. unfold updateLastAuth.
  destruct (getSlot devices id); try reflexivity.
  now rewrite lookup_insert_ne.
Qed.

Lemma revokeDevice_other devices id reason now other :
  other ≠ id →
  snd (revokeDevice devices id reason now) !! other = devices !! other.
Proof.
  intros Hne. unfold revokeDevice.
  destruct (getSlot devices id); simpl; try reflexivity.
  now rewrite lookup_insert_ne.
Qed.

(** C10: revoking an existing device succeeds and rewrites only that
    record's status, revokedAt and revokeReason; its deviceId, secret,
    registeredAt, lastAuthAt, authCount and metadata keep their values, and
    every other record of the registry is left as it was. *)
Theorem revokeDevice_frame devices id d reason now :
  devices !! id = Some d →
  fst (revokeDevice devices id reason now) = Return tt
  ∧ (∃ d', snd (revokeDevice devices id reason now) !! id = Some d'
           ∧ status d' = revoked
           ∧ revokedAt d' = Some now
           ∧ revokeReason d' = Some (default [] reason)
           ∧ deviceId d' = deviceId d
           ∧ secret d' = secret d
           ∧ registeredAt d' = registeredAt d
           ∧ lastAuthAt d' = lastAuthAt d
           ∧ authCount d' = authCount d
           ∧ metadata d' = metadata d)
  ∧ (∀ other, other ≠ id →
       snd (revokeDevice devices id reason now) !! other = devices !! other).
Proof.
  intros H. split; [| split].
  - unfold revokeDevice. now rewrite (getSlot_own _ _ _ H).
  - unfold revokeDevice. rewrite (getSlot_own _ _ _ H). simpl.
    eexists. split; [apply lookup_insert_eq |]. simpl. repeat split.
  - intros other Hne. now apply revokeDevice_other.
Qed.

Lemma revokeDevice_frame_witness :
  ∃ d', snd (revokeDevice sampleRegistry sampleId (Some (str "lost")) sampleNow)
        !! sampleId = Some d'
        ∧ status d' = revoked ∧ authCount d' = 3%Z.
Proof.
  destruct (revokeDevice_frame sampleRegistry sampleId sampleDevice
              (Some (str "lost")) sampleNow)
    as (_ & (d' & Hd' & Hs & _ & _ & _ & _ & _ & _ & Hc & _) & _).
  - vm_compute. reflexivity.
  - exists d'. repeat split; [exact Hd' | exact Hs | exact Hc].
Defined.

(** ** Safe reads *)

Lemma objectRest_drops name props :
  name ∉ fieldNames (objectRest name props).
Proof.
  unfold fieldNames, objectRest. intros Hin.
  apply list_elem_of_In, in_map_iff in Hin as ((k & v) & Hk & Hin).
  apply filter_In in Hin as [_ Hkeep]. simpl in *. subst k.
  now rewrite bool_decide_eq_true_2 in Hkeep.
Qed.

Lemma objectRest_keeps name props p :
  In p props → fst p ≠ name → In p (objectRest name props).
Proof.
  intros Hin Hne. apply filter_In. split; [exact Hin |].
  now rewrite bool_decide_eq_false_2.
Qed.

Lemma ownProperties_has_secret d :
  In (str "secret", FString (secret d)) (ownProperties d).
Proof. unfold ownProperties. simpl. auto. Qed.

Lemma keys_own (devices : registry) id :
  In id (keys devices) → ∃ d, devices !! id = Some d.
Proof.
  unfold keys. intros Hin. apply in_map_iff in Hin as ((k & d) & Hk & Hin).
  simpl in Hk. subst k. exists d.
  now apply elem_of_map_to_list, list_elem_of_In.
Qed.

Lemma keys_complete (devices : registry) id d :
  devices !! id = Some d → In id (keys devices).
Proof.
  intros H. unfold keys. apply in_map_iff. exists (id, d). split; [reflexivity |].
  now apply list_elem_of_In, elem_of_map_to_list.
Qed.

(** C9: in every registry state, and for every identifier, the view
    returned by getDevice has no "secret" property, and neither has any
    element of the list returned by listDevices, which holds one view per
    record; the stored record itself does carry its secret. *)
Theorem safe_reads_never_expose_secret (devices : registry) :
  (∀ id view, getDevice devices id = Some view →
              str "secret" ∉ fieldNames view)
  ∧ (∀ entry, In entry (listDevices devices) →
              ∃ view, entry = Some view ∧ str "secret" ∉ fieldNames view)
  ∧ length (listDevices devices) = size devices
  ∧ (∀ id d, devices !! id = Some d →
             In (str "secret") (fieldNames (ownProperties d))
             ∧ In (getDevice devices id) (listDevices devices)).
Proof.
  split; [| split; [| split]].
  - intros id view. unfold getDevice.
    destruct (getSlot devices id) as [d | |]; intros Hview;
      [| | discriminate Hview];
      apply (inj Some) in Hview; rewrite <- Hview; apply objectRest_drops.
  - intros entry Hin. unfold listDevices in Hin.
    apply in_map_iff in Hin as (id & <- & Hid).
    destruct (keys_own _ _ Hid) as (d & Hd).
    unfold getDevice. rewrite (getSlot_own _ _ _ Hd).
    eexists. split; [reflexivity | apply objectRest_drops].
  - unfold listDevices, keys. now rewrite !length_map, length_map_to_list.
  - intros id d Hd. split.
    + unfold fieldNames. apply in_map_iff.
      exists (str "secret", FString (secret d)). split; [reflexivity |].
      apply ownProperties_has_secret.
    + unfold listDevices. apply in_map_iff. exists id. split; [reflexivity |].
      now apply keys_complete with d.
Qed.

(** ** The token route *)

Section TokenRoute.
Variable unicodeUpper : N -> list N.
Variable SERVER_SECRET : jsstring.
Variable development : bool.

#[local] Abbreviation normalized := (normalizedDeviceId unicodeUpper).
#[local] Abbreviation token issuer :=
  (postToken unicodeUpper SERVER_SECRET development issuer).
#[local] Abbreviation run := (exec unicodeUpper SERVER_SECRET development).
#[local] Abbreviation runAll := (execAll unicodeUpper SERVER_SECRET development).

Lemma verifyDevice_never_throws devices id providedSecret :
  ∃ line found, verifyDevice SERVER_SECRET devices id providedSecret
                = Return (line, found).
Proof.
  unfold verifyDevice. destruct (getSlot devices id) as [d | |]; eauto.
  destruct (bool_decide (status d ≠ active)); eauto.
  rewrite verifySecret_total. destruct (bool_decide _); eauto.
Qed.

Lemma verifyDevice_found devices id providedSecret line device :
  verifyDevice SERVER_SECRET devices id providedSecret = Return (line, Some device) →
  devices !! id = Some device ∧ status device = active ∧ line = AuthVerified id.
Proof.
  unfold verifyDevice. destruct (getSlot devices id) as [d | |] eqn:Hslot;
    try discriminate.
  destruct (bool_decide (status d ≠ active)) eqn:Hst; [discriminate |].
  rewrite verifySecret_total. destruct (bool_decide (_ = _)); [| discriminate].
  intros [= <- <-]. apply getSlot_own_inv in Hslot.
  apply bool_decide_eq_false in Hst. split; [exact Hslot | split; [| reflexivity]].
  now destruct (decide (status d = active)).
Qed.

Lemma verifyDevice_rejected devices id providedSecret line :
  verifyDevice SERVER_SECRET devices id providedSecret = Return (line, None) →
  isFailure line = true.
Proof.
  unfold verifyDevice. destruct (getSlot devices id) as [d | |].
  - destruct (bool_decide (status d ≠ active)); [now intros [= <-] |].
    rewrite verifySecret_total. destruct (bool_decide (_ = _)); [discriminate |].
    now intros [= <-].
  - now intros [= <-].
  - now intros [= <-].
Qed.

Lemma verifyDevice_revoked devices id d providedSecret :
  devices !! id = Some d → status d = revoked →
  verifyDevice SERVER_SECRET devices id providedSecret
  = Return (InactiveDevice id, None).
Proof.
  intros Hd Hst. unfold verifyDevice. rewrite (getSlot_own _ _ _ Hd), Hst.
  reflexivity.
Qed.

Lemma falsyStr_present s : s ≠ [] → falsyStr (Some s) = false.
Proof. now destruct s. Qed.

(** A request that carries both fields goes on to verification. *)
Lemma postToken_present issuer devices raw provided hint nowMs nowIso :
  raw ≠ [] → provided ≠ [] →
  postToken unicodeUpper SERVER_SECRET development issuer devices
            (mkTokenRequest (Some raw) (Some provided) hint) nowMs nowIso
  = match verifyDevice SERVER_SECRET devices (normalized raw) provided with
    | Throw e => (failedToCreateToken development e, devices, [])
    | Return (line, None) => (invalidCredentials, devices, [line])
    | Return (line, Some device) =>
        match issuer (normalized raw)
                (mkClaims (str "esp8266") (normalized raw)
                          [str "switches:read"; str "switches:write"]
                          (claimedFirmware hint device) nowMs) with
        | Throw e => (failedToCreateToken development e, devices, [line])
        | Return customToken =>
            (json (TokenBody customToken 3600 (str "Authentication successful")),
             updateLastAuth devices (normalized raw) nowIso, [line])
        end
    end.
Proof.
  intros Hraw Hprov. unfold postToken.
  cbn [reqDeviceId reqSecret reqFirmwareVersion].
  rewrite (falsyStr_present raw Hraw), (falsyStr_present provided Hprov).
  reflexivity.
Qed.

(** *** Revocation *)

Lemma updateLastAuth_revokedIn devices id now k s :
  revokedIn devices k s → revokedIn (updateLastAuth devices id now) k s.
Proof.
  intros (d & Hd & Hst & Hs). destruct (decide (k = id)) as [-> | Hne].
  - unfold updateLastAuth. rewrite (getSlot_own _ _ _ Hd).
    eexists. split; [apply lookup_insert_eq |]. now simpl.
  - exists d. now rewrite updateLastAuth_other.
Qed.

Lemma registerDevice_revokedIn devices id metadata random now k s :
  revokedIn devices k s →
  revokedIn (snd (registerDevice devices id metadata random now)) k s.
Proof.
  intros (d & Hd & Hst & Hs). destruct (decide (k = id)) as [-> | Hne].
  - rewrite (registerDevice_existing _ _ _ _ _ _ Hd). now exists d.
  - exists d. now rewrite registerDevice_other.
Qed.

Lemma revokeDevice_revokedIn devices id reason now k s :
  revokedIn devices k s →
  revokedIn (snd (revokeDevice devices id reason now)) k s.
Proof.
  intros (d & Hd & Hst & Hs). destruct (decide (k = id)) as [-> | Hne].
  - unfold revokeDevice. rewrite (getSlot_own _ _ _ Hd). simpl.
    eexists. split; [apply lookup_insert_eq |]. now simpl.
  - exists d. now rewrite revokeDevice_other.
Qed.

Lemma postToken_registry issuer devices req nowMs nowIso :
  snd (fst (token issuer devices req nowMs nowIso)) = devices
  ∨ snd (fst (token issuer devices req nowMs nowIso))
    = updateLastAuth devices (normalized (default [] (reqDeviceId req))) nowIso.
Proof.
  unfold postToken.
  destruct (falsyStr (reqDeviceId req) || falsyStr (reqSecret req)); [now left |].
  destruct (verifyDevice _ _ _ _) as [[line [device |]] | e]; try now left.
  destruct (issuer _ _); [now right | now left].
Qed.

Lemma exec_revokedIn devices c k s :
  revokedIn devices k s → revokedIn (run devices c) k s.
Proof.
  intros H.
  destruct c as [id meta random now | | id now | id reason now | | |
                 issuer req nowMs nowIso | raw meta random now |
                 raw reason now | |]; simpl; try exact H.
  - now apply registerDevice_revokedIn.
  - now apply updateLastAuth_revokedIn.
  - now apply revokeDevice_revokedIn.
  - destruct (postToken_registry issuer devices req nowMs nowIso)
      as [-> | ->]; [exact H | now apply updateLastAuth_revokedIn].
  - unfold postRegister. destruct (falsyStr raw); [exact H |].
    pose proof (registerDevice_revokedIn devices (default [] raw)
                  meta random now k s H) as H'.
    now destruct (registerDevice _ _ _ _ _) as [[? | ?] ?].
  - unfold postRevoke. destruct (falsyStr raw); [exact H |].
    pose proof (revokeDevice_revokedIn devices (default [] raw)
                  reason now k s H) as H'.
    now destruct (revokeDevice _ _ _ _) as [[? | ?] ?].
Qed.

Lemma execAll_revokedIn calls devices k s :
  revokedIn devices k s → revokedIn (runAll devices calls) k s.
Proof.
  unfold execAll. revert devices.
  induction calls as [| c calls IH]; intros devices H; simpl; [exact H |].
  apply IH. now apply exec_revokedIn.
Qed.

(** C6: revocation is terminal.  Once the record stored under an
    identifier is revoked, it is still there and still revoked, with the same
    secret, after any sequence of calls into the server; every token
    request that names this device and supplies a secret, the stored one
    included, is answered 401 "Invalid credentials", whatever the issuer
    would do, and leaves the registry as it is; and no token request for the
    device, complete or not, is answered with a token. *)
Theorem revocation_is_terminal devices id d calls :
  devices !! id = Some d →
  status d = revoked →
  revokedIn (runAll devices calls) id (secret d)
  ∧ (∀ issuer raw provided hint nowMs nowIso,
       raw ≠ [] → provided ≠ [] → normalized raw = id →
       token issuer (runAll devices calls)
             (mkTokenRequest (Some raw) (Some provided) hint) nowMs nowIso
       = (invalidCredentials, runAll devices calls, [InactiveDevice id]))
  ∧ (∀ issuer req nowMs nowIso,
       normalized (default [] (reqDeviceId req)) = id →
       (fst (fst (token issuer (runAll devices calls) req nowMs nowIso))
        = missingFields
        ∨ fst (fst (token issuer (runAll devices calls) req nowMs nowIso))
          = invalidCredentials)
       ∧ snd (fst (token issuer (runAll devices calls) req nowMs nowIso))
         = runAll devices calls).
Proof.
  intros Hd Hst.
  assert (revokedIn (runAll devices calls) id (secret d)) as Hrev
    by (apply execAll_revokedIn; now exists d).
  split; [exact Hrev |].
  destruct Hrev as (d' & Hd' & Hst' & _). split.
  - intros issuer raw provided hint nowMs nowIso Hraw Hprov Hid.
    rewrite (postToken_present _ _ _ _ _ _ _ Hraw Hprov).
    rewrite Hid, (verifyDevice_revoked _ _ _ _ Hd' Hst'). reflexivity.
  - intros issuer req nowMs nowIso Hid. unfold postToken.
    destruct (falsyStr (reqDeviceId req) || falsyStr (reqSecret req));
      [split; [now left | reflexivity] |].
    rewrite Hid, (verifyDevice_revoked _ _ _ _ Hd' Hst').
    split; [now right | reflexivity].
Qed.

(** *** The issuer *)

(** C7: success is recorded only after the issuer has returned a token.
    When the device verifies and the issuer fails, the answer is the 500
    "Failed to create token" error and the registry, and with it the
    device's lastAuthAt and authCount, is unchanged; in general a token
    request changes the registry only when it answers 200 with the token the
    issuer returned, and then by one updateLastAuth. *)
Theorem failed_issuance_is_not_recorded issuer devices raw provided hint nowMs nowIso :
  raw ≠ [] → provided ≠ [] →
  let req := mkTokenRequest (Some raw) (Some provided) hint in
  let id := normalized raw in
  (∀ line device e,
      verifyDevice SERVER_SECRET devices id provided = Return (line, Some device) →
      issuer id (mkClaims (str "esp8266") id
                          [str "switches:read"; str "switches:write"]
                          (claimedFirmware hint device) nowMs) = Throw e →
      token issuer devices req nowMs nowIso
      = (failedToCreateToken development e, devices, [AuthVerified id])
      ∧ devices !! id = Some device)
  ∧ (snd (fst (token issuer devices req nowMs nowIso)) ≠ devices →
     ∃ device customToken,
       verifyDevice SERVER_SECRET devices id provided
       = Return (AuthVerified id, Some device)
       ∧ issuer id (mkClaims (str "esp8266") id
                             [str "switches:read"; str "switches:write"]
                             (claimedFirmware hint device) nowMs)
         = Return customToken
       ∧ token issuer devices req nowMs nowIso
         = (json (TokenBody customToken 3600 (str "Authentication successful")),
            updateLastAuth devices id nowIso, [AuthVerified id])).
Proof.
  intros Hraw Hprov req id. split.
  - intros line device e Hver Hiss.
    destruct (verifyDevice_found _ _ _ _ _ Hver) as (Hd & _ & ->).
    split; [| exact Hd].
    subst req. rewrite (postToken_present _ _ _ _ _ _ _ Hraw Hprov).
    fold id. rewrite Hver. now rewrite Hiss.
  - subst req. rewrite (postToken_present _ _ _ _ _ _ _ Hraw Hprov).
    fold id.
    destruct (verifyDevice SERVER_SECRET devices id provided)
      as [[line [device |]] | e] eqn:Hver; simpl; try congruence.
    destruct (verifyDevice_found _ _ _ _ _ Hver) as (_ & _ & ->).
    destruct (issuer id _) as [customToken | e] eqn:Hiss; simpl; try congruence.
    intros _. exists device, customToken. repeat split. exact Hiss.
Qed.

(** *** Uniform failures *)

(** On requests whose fields are strings: two token requests that fail
    verification, for whichever of the three reasons (unknown device,
    inactive status, wrong secret) and in whichever registries, receive the
    very same response, 401 with "Invalid credentials"; the reason only
    shows in the log line. *)
Lemma failures_are_indistinguishable
    issuer1 devices1 req1 nowMs1 nowIso1 issuer2 devices2 req2 nowMs2 nowIso2
    response1 after1 line1 response2 after2 line2 :
  token issuer1 devices1 req1 nowMs1 nowIso1 = (response1, after1, [line1]) →
  token issuer2 devices2 req2 nowMs2 nowIso2 = (response2, after2, [line2]) →
  isFailure line1 = true →
  isFailure line2 = true →
  response1 = response2
  ∧ response1 = invalidCredentials
  ∧ after1 = devices1 ∧ after2 = devices2.
Proof.
  assert (∀ issuer devices req nowMs nowIso response after line,
             token issuer devices req nowMs nowIso = (response, after, [line]) →
             isFailure line = true →
             response = invalidCredentials ∧ after = devices) as Hone.
  { intros issuer devices req nowMs nowIso response after line.
    unfold postToken.
    destruct (falsyStr (reqDeviceId req) || falsyStr (reqSecret req));
      [discriminate |].
    destruct (verifyDevice _ _ _ _) as [[l [device |]] | e] eqn:Hver;
      [| now intros [= <- <- <-] | discriminate].
    destruct (verifyDevice_found _ _ _ _ _ Hver) as (_ & _ & ->).
    destruct (issuer _ _); intros [= <- <- <-]; discriminate. }
  intros H1 H2 F1 F2.
  destruct (Hone _ _ _ _ _ _ _ _ H1 F1) as [-> ->].
  destruct (Hone _ _ _ _ _ _ _ _ H2 F2) as [-> ->].
  repeat split.
Qed.

End TokenRoute.

(** ** The properties at work on the sample registry *)

Lemma safe_reads_never_expose_secret_witness :
  (str "secret"
     ∉ fieldNames (objectRest (str "secret") (ownProperties sampleDevice)))
  ∧ In (getDevice sampleRegistry sampleId) (listDevices sampleRegistry).
Proof.
  split.
  - apply (proj1 (safe_reads_never_expose_secret sampleRegistry) sampleId).
    vm_compute. reflexivity.
  - apply (proj2 (proj2 (proj2 (safe_reads_never_expose_secret sampleRegistry)))
             sampleId sampleDevice).
    vm_compute. reflexivity.
Defined.

Lemma revocation_is_terminal_witness :
  let revokedRegistry :=
    snd (revokeDevice sampleRegistry sampleId (Some (str "lost")) sampleNow) in
  let calls :=
    [ PostRegister (Some sampleId) None (repeat Byte.x17 32) sampleNow;
      CallUpdateLastAuth sampleId sampleNow;
      PostRevoke (Some (str "aa:bb:cc:dd:ee:ff")) None sampleNow ] in
  postToken caselessBeyondAscii sampleKey false issuerUp
            (execAll caselessBeyondAscii sampleKey false revokedRegistry calls)
            (mkTokenRequest (Some (str "aa-bb-cc-dd-ee-ff"))
                            (Some (secret sampleDevice)) None)
            1706745600000 sampleNow
  = (invalidCredentials,
     execAll caselessBeyondAscii sampleKey false revokedRegistry calls,
     [InactiveDevice sampleId]).
Proof.
  intros revokedRegistry calls.
  refine (proj1 (proj2 (revocation_is_terminal caselessBeyondAscii sampleKey false
                   revokedRegistry sampleId
                   (mkDevice sampleId (secret sampleDevice) revoked
                             (registeredAt sampleDevice) (lastAuthAt sampleDevice)
                             (authCount sampleDevice) (metadata sampleDevice)
                             (Some sampleNow) (Some (str "lost")))
                   calls _ _))
                issuerUp (str "aa-bb-cc-dd-ee-ff") (secret sampleDevice) None
                1706745600000%Z sampleNow _ _ _).
  - vm_compute. reflexivity.
  - reflexivity.
  - discriminate.
  - discriminate.
  - vm_compute. reflexivity.
Defined.

Lemma failed_issuance_is_not_recorded_witness :
  postToken caselessBeyondAscii sampleKey true issuerDown sampleRegistry
            (mkTokenRequest (Some (str "aa-bb-cc-dd-ee-ff"))
                            (Some (secret sampleDevice)) None)
            1706745600000 sampleNow
  = (mkResponse 500 (ErrorBody (str "Failed to create token")
                               (Some (str "auth/network-request-failed"))),
     sampleRegistry, [AuthVerified sampleId])
  ∧ sampleRegistry !! sampleId = Some sampleDevice.
Proof.
  refine (proj1 (failed_issuance_is_not_recorded caselessBeyondAscii sampleKey true
                   issuerDown sampleRegistry (str "aa-bb-cc-dd-ee-ff")
                   (secret sampleDevice) None 1706745600000%Z sampleNow _ _)
                (AuthVerified sampleId) sampleDevice
                (str "auth/network-request-failed") _ _).
  - discriminate.
  - discriminate.
  - vm_compute. reflexivity.
  - reflexivity.
Defined.

Lemma failures_are_indistinguishable_witness :
  mkResponse 401 (ErrorBody (str "Invalid credentials") None) = invalidCredentials
  ∧ UnknownDevice (str "11:22:33:44:55:66") ≠ InvalidSecret sampleId.
Proof.
  split; [| discriminate].
  refine (proj1 (failures_are_indistinguishable caselessBeyondAscii sampleKey false
                   issuerUp ∅
                   (mkTokenRequest (Some (str "11-22-33-44-55-66"))
                                   (Some (secret sampleDevice)) None)
                   1706745600000%Z sampleNow
                   issuerUp sampleRegistry
                   (mkTokenRequest (Some sampleId) (Some (str "guess")) None)
                   1706745600001%Z sampleNow
                   (mkResponse 401 (ErrorBody (str "Invalid credentials") None))
                   ∅ (UnknownDevice (str "11:22:33:44:55:66"))
                   invalidCredentials sampleRegistry (InvalidSecret sampleId)
                   _ _ _ _)).
  - vm_compute. reflexivity.
  - vm_compute. reflexivity.
  - reflexivity.
  - reflexivity.
Defined.

(** ** Registration *)

Lemma hexByte_digits b :
  Forall (λ c, Crypto.isHexDigit c = true) (Crypto.hexByte b).
Proof. destruct b; repeat constructor. Qed.

Lemma toHex_length bs : length (Crypto.toHex bs) = (2 * length bs)%nat.
Proof.
  unfold Crypto.toHex. induction bs as [| b bs IH]; simpl; [reflexivity |].
  rewrite IH. lia.
Qed.

Lemma toHex_digits bs : Forall (λ c, Crypto.isHexDigit c = true) (Crypto.toHex bs).
Proof.
  unfold Crypto.toHex. induction bs as [| b bs IH]; [constructor |].
  cbn [flat_map]. apply Forall_app. split; [apply hexByte_digits | exact IH].
Qed.

(** A name the store does not resolve is registered: the caller receives
    the identifier with a fresh 64-digit hexadecimal secret, and the new
    record is active and has never authenticated. *)
Lemma registerDevice_fresh devices id metadata random now :
  getSlot devices id = Missing →
  length random = 32%nat →
  ∃ d, registerDevice devices id metadata random now
       = (Return (mkCredentials id (secret d)), <[id := d]> devices)
       ∧ length (secret d) = 64%nat
       ∧ Forall (λ c, Crypto.isHexDigit c = true) (secret d)
       ∧ deviceId d = id
       ∧ status d = active ∧ authCount d = 0%Z ∧ lastAuthAt d = None
       ∧ getSlot (<[id := d]> devices) id = Own d.
Proof.
  intros Hslot Hlen. unfold registerDevice. rewrite Hslot.
  exists (mkDevice id (Crypto.toHex random) active now None 0%Z
                   (buildMetadata (default ∅ metadata)) None None).
  split; [reflexivity |]. cbn [secret deviceId status authCount lastAuthAt].
  rewrite toHex_length, Hlen.
  repeat split; try apply toHex_digits.
  apply getSlot_own, lookup_insert_eq.
Qed.

(** Registering one and the same identifier again is refused, and the
    record of the first registration, its secret included, stays. *)
Lemma registerDevice_twice devices id metadata1 random1 now1 metadata2 random2 now2 c devices' :
  registerDevice devices id metadata1 random1 now1 = (Return c, devices') →
  registerDevice devices' id metadata2 random2 now2
  = (Throw ALREADY_REGISTERED, devices')
  ∧ ∃ d, devices' !! id = Some d ∧ secret d = credSecret c.
Proof.
  unfold registerDevice at 1. destruct (getSlot devices id); try discriminate.
  intros [= <- <-]. split.
  - eapply registerDevice_existing, lookup_insert_eq.
  - eexists. split; [apply lookup_insert_eq | reflexivity].
Qed.

Lemma postRegister_fresh devices raw metadata random now :
  raw ≠ [] → getSlot devices raw = Missing →
  postRegister devices (Some raw) metadata random now
  = (json (RegisteredBody (str "Device registered successfully")
             (mkCredentials raw (Crypto.toHex random))),
     snd (registerDevice devices raw metadata random now)).
Proof.
  intros Hraw Hslot. unfold postRegister. rewrite (falsyStr_present raw Hraw).
  cbn [from_option id]. unfold registerDevice. now rewrite Hslot.
Qed.

Lemma registerDevice_registry devices id metadata random now :
  getSlot devices id = Missing →
  snd (registerDevice devices id metadata random now)
  = <[id := mkDevice id (Crypto.toHex random) active now None 0%Z
                     (buildMetadata (default ∅ metadata)) None None]> devices.
Proof. intros Hslot. unfold registerDevice. now rewrite Hslot. Qed.

(** C1: registering "aa:bb:cc:dd:ee:ff" and then "AA:BB:CC:DD:EE:FF",
    two spellings of one canonical identifier, is not refused: the admin
    route stores identifiers as given, so the second call answers 200 with
    a second secret and the registry holds two records. *)
Theorem register_other_spelling_is_accepted random1 random2 now1 now2 :
  let first :=
    postRegister ∅ (Some (str "aa:bb:cc:dd:ee:ff")) None random1 now1 in
  let second :=
    postRegister (snd first) (Some (str "AA:BB:CC:DD:EE:FF")) None random2 now2 in
  normalizedDeviceId caselessBeyondAscii (str "aa:bb:cc:dd:ee:ff")
  = normalizedDeviceId caselessBeyondAscii (str "AA:BB:CC:DD:EE:FF")
  ∧ fst second
    = json (RegisteredBody (str "Device registered successfully")
              (mkCredentials (str "AA:BB:CC:DD:EE:FF") (Crypto.toHex random2)))
  ∧ size (snd second) = 2%nat
  ∧ secret <$> snd second !! str "aa:bb:cc:dd:ee:ff" = Some (Crypto.toHex random1)
  ∧ secret <$> snd second !! str "AA:BB:CC:DD:EE:FF" = Some (Crypto.toHex random2).
Proof.
  intros first second. split; [reflexivity |].
  assert (getSlot ∅ (str "aa:bb:cc:dd:ee:ff") = Missing) as Hslot1
    by (vm_compute; reflexivity).
  assert (snd first
          = <[str "aa:bb:cc:dd:ee:ff"
              := mkDevice (str "aa:bb:cc:dd:ee:ff") (Crypto.toHex random1) active
                          now1 None 0%Z (buildMetadata ∅) None None]> ∅) as Hfirst.
  { subst first. rewrite postRegister_fresh by (discriminate || exact Hslot1).
    cbn [snd]. now rewrite registerDevice_registry. }
  assert (getSlot (snd first) (str "AA:BB:CC:DD:EE:FF") = Missing) as Hslot2
    by (rewrite Hfirst; vm_compute; reflexivity).
  subst second. rewrite postRegister_fresh by (discriminate || exact Hslot2).
  cbn [fst snd]. rewrite registerDevice_registry by exact Hslot2.
  rewrite Hfirst. split; [reflexivity |]. split; [| split].
  - rewrite map_size_insert_None by (vm_compute; reflexivity).
    rewrite map_size_insert_None by apply lookup_empty.
    now rewrite map_size_empty.
  - rewrite lookup_insert_ne by discriminate. now rewrite lookup_insert_eq.
  - now rewrite lookup_insert_eq.
Qed.

(** C4: a name that [Object.prototype] defines is not in the registry,
    yet registering it is refused: on the empty registry,
    registerDevice("constructor") finds the inherited property, throws
    "Device already registered" and stores nothing, so no lookup afterwards
    returns an active device for that identifier. *)
Theorem register_inherited_name_is_refused metadata random now :
  (∅ : registry) !! str "constructor" = None
  ∧ registerDevice ∅ (str "constructor") metadata random now
    = (Throw ALREADY_REGISTERED, ∅)
  ∧ postRegister ∅ (Some (str "constructor")) metadata random now
    = (mkResponse 400 (ErrorBody (str "Device already registered") None), ∅)
  ∧ getSlot (snd (registerDevice ∅ (str "constructor") metadata random now))
            (str "constructor") = Inherited.
Proof.
  assert (getSlot ∅ (str "constructor") = Inherited) as Hslot
    by (vm_compute; reflexivity).
  assert (registerDevice ∅ (str "constructor") metadata random now
          = (Throw ALREADY_REGISTERED, ∅)) as Hreg
    by (unfold registerDevice; now rewrite Hslot).
  split; [apply lookup_empty |]. split; [exact Hreg |]. split.
  - unfold postRegister. rewrite falsyStr_present by discriminate.
    cbn [from_option id]. now rewrite Hreg.
  - now rewrite Hreg.
Qed.

(** C2: the admin routes and the registry use identifiers as given, only
    the token route normalizes.  A device registered as "5c-cf-7f-12-34-56"
    is stored under that spelling; a token request with the same spelling
    and the issued secret looks up "5C:CF:7F:12:34:56" and is answered 401,
    and reading or revoking the device under its canonical spelling finds
    nothing. *)
Theorem admin_identifiers_are_not_canonical
    unicodeUpper SERVER_SECRET development issuer now nowMs nowIso :
  let random := repeat Byte.x2a 32 in
  let registered :=
    postRegister ∅ (Some (str "5c-cf-7f-12-34-56")) None random now in
  fst registered
  = json (RegisteredBody (str "Device registered successfully")
            (mkCredentials (str "5c-cf-7f-12-34-56") (Crypto.toHex random)))
  ∧ keys (snd registered) = [str "5c-cf-7f-12-34-56"]
  ∧ normalizedDeviceId unicodeUpper (str "5c-cf-7f-12-34-56")
    = str "5C:CF:7F:12:34:56"
  ∧ postToken unicodeUpper SERVER_SECRET development issuer (snd registered)
              (mkTokenRequest (Some (str "5c-cf-7f-12-34-56"))
                              (Some (Crypto.toHex random)) None)
              nowMs nowIso
    = (invalidCredentials, snd registered,
       [UnknownDevice (str "5C:CF:7F:12:34:56")])
  ∧ getDeviceById (snd registered) (str "5C:CF:7F:12:34:56")
    = mkResponse 404 (ErrorBody (str "Device not found") None)
  ∧ postRevoke (snd registered) (Some (str "5C:CF:7F:12:34:56")) None now
    = (mkResponse 400 (ErrorBody (str "Device not found") None), snd registered).
Proof.
  intros random registered.
  assert (getSlot ∅ (str "5c-cf-7f-12-34-56") = Missing) as Hslot
    by (vm_compute; reflexivity).
  assert (registered
          = (json (RegisteredBody (str "Device registered successfully")
                     (mkCredentials (str "5c-cf-7f-12-34-56")
                                    (Crypto.toHex random))),
             <[str "5c-cf-7f-12-34-56"
               := mkDevice (str "5c-cf-7f-12-34-56") (Crypto.toHex random) active
                           now None 0%Z (buildMetadata ∅) None None]> ∅))
    as ->.
  { subst registered. rewrite postRegister_fresh by (discriminate || exact Hslot).
    now rewrite registerDevice_registry. }
  cbn [fst snd].
  assert (∀ d, getSlot (<[str "5c-cf-7f-12-34-56" := d]> (∅ : registry))
                       (str "5C:CF:7F:12:34:56") = Missing) as Hcanon.
  { intros d. unfold getSlot.
    rewrite lookup_insert_ne by discriminate. rewrite lookup_empty.
    vm_compute. reflexivity. }
  split; [reflexivity |]. split; [| split; [reflexivity | split; [| split]]].
  - unfold keys. now rewrite insert_empty, map_to_list_singleton.
  - unfold postToken. cbn [reqDeviceId reqSecret reqFirmwareVersion].
    rewrite !falsyStr_present by discriminate.
    cbn [orb from_option id].
    change (normalizedDeviceId unicodeUpper (str "5c-cf-7f-12-34-56"))
      with (str "5C:CF:7F:12:34:56").
    unfold verifyDevice. now rewrite Hcanon.
  - unfold getDeviceById, getDevice. now rewrite Hcanon.
  - unfold postRevoke. rewrite falsyStr_present by discriminate.
    cbn [from_option id]. unfold revokeDevice. now rewrite Hcanon.
Qed.

(** ** Test vectors and a full run *)

Example sha256_abc :
  Crypto.toHex (Crypto.sha256 (Crypto.utf8 (str "abc")))
  = str "ba7816bf8f01cfea414140de5dae2223b00361a396177a9cb410ff61f20015ad".
Proof. vm_compute. reflexivity. Qed.

Example sha256_two_blocks :
  Crypto.toHex (Crypto.sha256 (repeat Byte.x61 120))
  = str "2f3d335432c70b580af0e8e1b3674a7c020d683aa5f73aaaedfdc55af904c21c".
Proof. vm_compute. reflexivity. Qed.

(** RFC 4231, test case 2. *)
Example hmacSha256_rfc4231_2 :
  Crypto.toHex (Crypto.hmacSha256 (str "Jefe") (str "what do ya want for nothing?"))
  = str "5bdcc146bf60754e6a042426089575c75a003f089d2739839dec58b964ec3843".
Proof. vm_compute. reflexivity. Qed.

(** A key longer than a block, and text beyond ASCII. *)
Example hmacSha256_long_key_and_utf8 :
  Crypto.toHex (Crypto.hmacSha256 (repeat 107 70%nat) (str "msg"))
  = str "869b65e96f6aff0cfcb55ed40163b7d46e124a4213fa2232d61cca5e4a21256e"
  ∧ Crypto.toHex (Crypto.hmacSha256 [0x63; 0x6c; 0xe9]
                                    [0x35; 0x43; 0x3a; 0x43; 0x46; 0x20ac; 0x1f600])
    = str "5848f8c091eba2c03008fe361229ae80d7d990d1755e148b0bf62963cb9247da".
Proof. split; vm_compute; reflexivity. Qed.

(** Register, register again, authenticate, revoke, authenticate again and
    list: the responses, and the counters after the first token. *)
Example register_authenticate_revoke :
  let token := postToken caselessBeyondAscii sampleKey false issuerUp in
  let random := repeat Byte.x2a 32 in
  let secret := Crypto.toHex random in
  let request := mkTokenRequest (Some (str "aa:bb:cc:dd:ee:ff")) (Some secret) None in
  let r1 := postRegister ∅ (Some sampleId) (Some ∅) random sampleNow in
  let r2 := postRegister (snd r1) (Some sampleId) (Some ∅) (repeat Byte.x17 32) sampleNow in
  let r3 := token (snd r2) request 1706745600000%Z (str "2024-02-01T00:00:01.000Z") in
  let r4 := postRevoke (snd (fst r3)) (Some sampleId) (Some (str "lost"))
                       (str "2024-02-01T00:00:02.000Z") in
  let r5 := token (snd r4) request 1706745603000%Z (str "2024-02-01T00:00:03.000Z") in
  ( fst r1, length secret, size (snd r1),
    fst r2, size (snd r2),
    fst (fst r3),
    authCount <$> snd (fst r3) !! sampleId,
    lastAuthAt <$> snd (fst r3) !! sampleId,
    fst r4,
    fst (fst r5), snd r5,
    getDevices (snd (fst r5)) )
  = ( json (RegisteredBody (str "Device registered successfully")
                           (mkCredentials sampleId secret)),
      64%nat, 1%nat,
      mkResponse 400 (ErrorBody (str "Device already registered") None), 1%nat,
      json (TokenBody (str "token-for-AA:BB:CC:DD:EE:FF") 3600
                      (str "Authentication successful")),
      Some 1%Z,
      Some (Some (str "2024-02-01T00:00:01.000Z")),
      json (RevokedBody (str "Device revoked successfully") sampleId),
      invalidCredentials, [InactiveDevice sampleId],
      json (DeviceListBody 1
        [Some [ (str "deviceId", FString sampleId);
                (str "status", FString (str "revoked"));
                (str "registeredAt", FString sampleNow);
                (str "lastAuthAt", FString (str "2024-02-01T00:00:01.000Z"));
                (str "authCount", FNumber 1);
                (str "metadata", FObject (buildMetadata ∅));
                (str "revokedAt", FString (str "2024-02-01T00:00:02.000Z"));
                (str "revokeReason", FString (str "lost")) ]]) ).
Proof. vm_compute. reflexivity. Qed.

(** * Further properties of the code *)

(** ** Canonical identifiers *)

Section CanonicalForm.
Variable unicodeUpper : N -> list N.
Hypothesis upper_stable :
  ∀ c d, 128 <= c → In d (unicodeUpper c) → upperCodePoint unicodeUpper d = [d].

Lemma canonicalCodePoint_upper c :
  canonicalCodePoint c = true → upperCodePoint unicodeUpper c = [c].
Proof.
  unfold canonicalCodePoint, lowerAscii, upperCodePoint.
  intros H. apply andb_true_iff in H as [H Hhy].
  apply andb_true_iff in H as [Hascii Hlow].
  apply negb_true_iff in Hlow. now rewrite Hlow, Hascii.
Qed.

Lemma canonicalCodePoint_separator c :
  canonicalCodePoint c = true →
  (if (c =? COLON) || (c =? HYPHEN) then COLON else c) = c.
Proof.
  unfold canonicalCodePoint. intros H. apply andb_true_iff in H as [_ Hhy].
  apply negb_true_iff in Hhy. rewrite Hhy, orb_false_r.
  destruct (c =? COLON) eqn:Hc; [| reflexivity].
  now apply N.eqb_eq in Hc.
Qed.

(** X1: an identifier already in canonical form, made of ASCII code points
    other than small letters and hyphens, is left as it is, whatever the
    case table beyond ASCII. *)
Theorem normalizedDeviceId_fixes_canonical s :
  Forall (λ c, canonicalCodePoint c = true) s →
  normalizedDeviceId unicodeUpper s = s.
Proof.
  intros Hs. unfold normalizedDeviceId.
  rewrite toUpperCase_fixed.
  - unfold replaceSeparators. induction Hs as [| c s Hc _ IH]; [reflexivity |].
    cbn [List.map]. now rewrite IH, canonicalCodePoint_separator.
  - eapply Forall_impl; [exact Hs |]. intros c Hc.
    now apply canonicalCodePoint_upper.
Qed.

Lemma stable_not_lowerAscii d :
  upperCodePoint unicodeUpper d = [d] → lowerAscii d = false.
Proof.
  unfold upperCodePoint, lowerAscii.
  destruct ((97 <=? d) && (d <=? 122)) eqn:Hlow; [| reflexivity].
  apply andb_true_iff in Hlow as [H1%N.leb_le H2%N.leb_le].
  intros [= H]. lia.
Qed.

Lemma normalized_shape raw :
  Forall (λ c, c ≠ HYPHEN ∧ lowerAscii c = false)
         (normalizedDeviceId unicodeUpper raw).
Proof using upper_stable.
  unfold normalizedDeviceId.
  pose proof (replaceSeparators_stable unicodeUpper _
                (toUpperCase_stable unicodeUpper upper_stable raw)) as Hst.
  apply List.Forall_forall. intros c Hin. split.
  - unfold replaceSeparators in Hin. apply in_map_iff in Hin as (c0 & Hc & _).
    destruct (c0 =? HYPHEN) eqn:Hhy.
    + rewrite orb_true_r in Hc. subst c. discriminate.
    + destruct (c0 =? COLON); cbn [orb] in Hc; subst c; [discriminate |].
      now apply N.eqb_neq.
  - apply stable_not_lowerAscii. revert c Hin. now apply List.Forall_forall.
Qed.

(** X2: the canonical form holds no hyphen and no small ASCII letter. *)
Theorem normalizedDeviceId_shape raw :
  Forall (λ c, c ≠ HYPHEN ∧ lowerAscii c = false)
         (normalizedDeviceId unicodeUpper raw).
Proof using upper_stable. apply normalized_shape. Qed.

(** X3: a record stored under an identifier that holds a hyphen or a small
    ASCII letter is out of the token route's reach: no request normalizes
    to that identifier, and no token request, whatever it carries, touches
    the record. *)
Theorem noncanonical_record_is_unreachable
    (SERVER_SECRET : jsstring) (development : bool)
    (issuer : jsstring → Claims → outcome jsstring)
    (devices : registry) (id : jsstring) (c : N)
    (req : TokenRequest) (nowMs : Z) (nowIso : jsstring) :
  In c id →
  c = HYPHEN ∨ lowerAscii c = true →
  (∀ raw, normalizedDeviceId unicodeUpper raw ≠ id)
  ∧ snd (fst (postToken unicodeUpper SERVER_SECRET development issuer
                        devices req nowMs nowIso)) !! id
    = devices !! id.
Proof using upper_stable.
  intros Hin Hc.
  assert (∀ raw, normalizedDeviceId unicodeUpper raw ≠ id) as Hne.
  { intros raw Heq. pose proof (normalized_shape raw) as Hshape.
    rewrite Heq, List.Forall_forall in Hshape.
    destruct (Hshape c Hin) as [Hhy Hlow]. destruct Hc; congruence. }
  split; [exact Hne |].
  destruct (postToken_registry unicodeUpper SERVER_SECRET development issuer
              devices req nowMs nowIso) as [-> | ->]; [reflexivity |].
  apply updateLastAuth_other. intros Heq. now apply (Hne _ (eq_sym Heq)).
Qed.

(** X4: the token route never resolves an identifier to a built-in
    inherited
    from [Object.prototype]: a canonical identifier is none of those names,
    so its slot is the record stored under it or missing. *)
Theorem normalizedDeviceId_never_inherited (devices : registry) raw :
  (normalizedDeviceId unicodeUpper raw ∉ protoKeys)
  ∧ getSlot devices (normalizedDeviceId unicodeUpper raw)
    = from_option Own Missing (devices !! normalizedDeviceId unicodeUpper raw).
Proof using upper_stable.
  assert (normalizedDeviceId unicodeUpper raw ∉ protoKeys) as Hnot.
  { intros Hin. pose proof (normalized_shape raw) as Hshape.
    assert (Forall (λ key, existsb lowerAscii key = true) protoKeys) as Hkeys
      by (repeat constructor).
    rewrite List.Forall_forall in Hkeys.
    apply list_elem_of_In in Hin. specialize (Hkeys _ Hin).
    apply existsb_exists in Hkeys as (c & Hc & Hlow).
    rewrite List.Forall_forall in Hshape. destruct (Hshape c Hc) as [_ Hno].
    congruence. }
  split; [exact Hnot |]. unfold getSlot.
  destruct (devices !! normalizedDeviceId unicodeUpper raw); [reflexivity |].
  now rewrite bool_decide_eq_false_2.
Qed.

End CanonicalForm.

Lemma normalizedDeviceId_fixes_canonical_witness :
  normalizedDeviceId caselessBeyondAscii (str "5C:CF:7F:12:34:56")
  = str "5C:CF:7F:12:34:56".
Proof.
  apply (normalizedDeviceId_fixes_canonical caselessBeyondAscii).
  repeat constructor.
Defined.

Lemma normalizedDeviceId_shape_witness :
  Forall (λ c, c ≠ HYPHEN ∧ lowerAscii c = false)
         (normalizedDeviceId caselessBeyondAscii (str "5c-cf-7f-12-34-56")).
Proof.
  apply (normalizedDeviceId_shape caselessBeyondAscii caselessBeyondAscii_stable).
Defined.

Lemma noncanonical_record_is_unreachable_witness :
  snd (fst (postToken caselessBeyondAscii sampleKey false issuerUp
              {[ str "5c-cf-7f-12-34-56" := sampleDevice ]}
              (mkTokenRequest (Some (str "5c-cf-7f-12-34-56"))
                              (Some (secret sampleDevice)) None)
              1706745600000 sampleNow))
  !! str "5c-cf-7f-12-34-56"
  = ({[ str "5c-cf-7f-12-34-56" := sampleDevice ]} : registry)
    !! str "5c-cf-7f-12-34-56".
Proof.
  refine (proj2 (noncanonical_record_is_unreachable caselessBeyondAscii
                   caselessBeyondAscii_stable sampleKey false issuerUp
                   {[ str "5c-cf-7f-12-34-56" := sampleDevice ]}
                   (str "5c-cf-7f-12-34-56") HYPHEN _ _ _ _ _)).
  - vm_compute. auto.
  - now left.
Defined.

Lemma normalizedDeviceId_never_inherited_witness :
  getSlot sampleRegistry (normalizedDeviceId caselessBeyondAscii (str "tostring"))
  = from_option Own Missing
      (sampleRegistry !! normalizedDeviceId caselessBeyondAscii (str "tostring")).
Proof.
  apply (normalizedDeviceId_never_inherited caselessBeyondAscii
           caselessBeyondAscii_stable sampleRegistry (str "tostring")).
Defined.

(** ** Registering, counting and revoking *)

Lemma getSlot_missing (devices : registry) id :
  devices !! id = None → id ∉ protoKeys → getSlot devices id = Missing.
Proof.
  intros Hnone Hproto. unfold getSlot. rewrite Hnone.
  now rewrite bool_decide_eq_false_2.
Qed.

Lemma getSlot_insert (devices : registry) a b d :
  getSlot (<[a := d]> devices) b
  = if decide (a = b) then Own d else getSlot devices b.
Proof.
  unfold getSlot. destruct (decide (a = b)) as [-> | Hne].
  - now rewrite lookup_insert_eq.
  - now rewrite lookup_insert_ne.
Qed.

(** X6: once an identifier is registered, registering it again is refused
    with "Device already registered", whatever metadata and random bytes the
    second call brings; the registry is left as the first call made it, the
    first secret included. *)
Theorem registerDevice_again_is_refused
    devices id metadata1 random1 now1 metadata2 random2 now2 c devices' :
  registerDevice devices id metadata1 random1 now1 = (Return c, devices') →
  registerDevice devices' id metadata2 random2 now2
  = (Throw ALREADY_REGISTERED, devices')
  ∧ credDeviceId c = id
  ∧ ∃ d, devices' !! id = Some d ∧ secret d = credSecret c.
Proof.
  intros Hreg.
  destruct (registerDevice_twice _ _ _ _ _ metadata2 random2 now2 _ _ Hreg)
    as [Hagain Hd].
  split; [exact Hagain |]. split; [| exact Hd].
  unfold registerDevice in Hreg. destruct (getSlot devices id); try discriminate.
  now injection Hreg as <- _.
Qed.

Lemma registerDevice_again_is_refused_witness :
  registerDevice
    (snd (registerDevice ∅ sampleId None (repeat Byte.x2a 32) sampleNow))
    sampleId (Some ∅) (repeat Byte.x17 32) sampleNow
  = (Throw ALREADY_REGISTERED,
     snd (registerDevice ∅ sampleId None (repeat Byte.x2a 32) sampleNow)).
Proof.
  refine (proj1 (registerDevice_again_is_refused ∅ sampleId None
                   (repeat Byte.x2a 32) sampleNow (Some ∅) (repeat Byte.x17 32)
                   sampleNow
                   (mkCredentials sampleId (Crypto.toHex (repeat Byte.x2a 32)))
                   _ _)).
  vm_compute. reflexivity.
Defined.

Lemma buildMetadata_keys (supplied : gmap jsstring value) k :
  is_Some (buildMetadata supplied !! k) ↔
  k = FIRMWARE_VERSION ∨ k = HARDWARE_VERSION ∨ is_Some (supplied !! k).
Proof.
  unfold buildMetadata. rewrite lookup_union_is_Some.
  destruct (decide (k = FIRMWARE_VERSION)) as [-> | Hfw].
  { rewrite lookup_insert_eq. split; [auto | intros _; right; eauto]. }
  destruct (decide (k = HARDWARE_VERSION)) as [-> | Hhw].
  { rewrite lookup_insert_ne by discriminate. rewrite lookup_insert_eq.
    split; [auto | intros _; right; eauto]. }
  rewrite !lookup_insert_ne by congruence. rewrite lookup_empty.
  split.
  - intros [H | H]; [auto | now destruct H].
  - intros [H | [H | H]]; [congruence | congruence | now left].
Qed.

(** X7: the metadata stored at registration keeps every key of the caller's
    mapping with the caller's value, a falsy one included; the two
    recognised keys are present in any case, as "unknown" when the caller
    left them out; no other key appears. *)
Theorem registered_metadata_keeps_caller_values (supplied : gmap jsstring value) :
  (∀ k v, supplied !! k = Some v → buildMetadata supplied !! k = Some v)
  ∧ (supplied !! FIRMWARE_VERSION = None →
     buildMetadata supplied !! FIRMWARE_VERSION = Some UNKNOWN)
  ∧ (supplied !! HARDWARE_VERSION = None →
     buildMetadata supplied !! HARDWARE_VERSION = Some UNKNOWN)
  ∧ (∀ k, is_Some (buildMetadata supplied !! k) ↔
          k = FIRMWARE_VERSION ∨ k = HARDWARE_VERSION ∨ is_Some (supplied !! k)).
Proof.
  split; [| split; [| split]]; [unfold buildMetadata .. |].
  - intros k v Hk. now apply lookup_union_Some_l.
  - intros Hnone. rewrite lookup_union_r by exact Hnone.
    rewrite lookup_insert_eq. now rewrite Hnone.
  - intros Hnone. rewrite lookup_union_r by exact Hnone.
    rewrite lookup_insert_ne by discriminate.
    rewrite lookup_insert_eq. now rewrite Hnone.
  - intros k. apply buildMetadata_keys.
Qed.

Lemma registered_metadata_keeps_caller_values_witness :
  buildMetadata {[ FIRMWARE_VERSION := VStr [] ]} !! FIRMWARE_VERSION
  = Some (VStr [])
  ∧ buildMetadata {[ FIRMWARE_VERSION := VStr [] ]} !! HARDWARE_VERSION
    = Some UNKNOWN.
Proof.
  split.
  - apply (proj1 (registered_metadata_keeps_caller_values
                    {[ FIRMWARE_VERSION := VStr [] ]})).
    vm_compute. reflexivity.
  - apply (proj1 (proj2 (proj2 (registered_metadata_keeps_caller_values
                                  {[ FIRMWARE_VERSION := VStr [] ]})))).
    vm_compute. reflexivity.
Defined.

Lemma updateLastAuth_own devices id d now :
  devices !! id = Some d →
  updateLastAuth devices id now
  = <[id := mkDevice (deviceId d) (secret d) (status d) (registeredAt d)
                     (Some now) (authCount d + 1)%Z (metadata d)
                     (revokedAt d) (revokeReason d)]> devices.
Proof. intros Hd. unfold updateLastAuth. now rewrite (getSlot_own _ _ _ Hd). Qed.

(** X8: recording an authentication of a registered device whose
    authCount lies in the range the runtime counts exactly, from -2^53 up to
    but not including 2^53, sets its lastAuthAt to the current time and adds
    exactly one to its authCount; every other field of the record and every
    other record stay as they are.  For an identifier that is not
    registered nothing changes in the registry. *)
Theorem updateLastAuth_counts_one devices id now :
  (∀ d, devices !! id = Some d →
        (- MAX_COUNT <= authCount d < MAX_COUNT)%Z →
        ∃ d', updateLastAuth devices id now !! id = Some d'
              ∧ lastAuthAt d' = Some now
              ∧ authCount d' = (authCount d + 1)%Z
              ∧ deviceId d' = deviceId d
              ∧ secret d' = secret d
              ∧ status d' = status d
              ∧ registeredAt d' = registeredAt d
              ∧ metadata d' = metadata d
              ∧ revokedAt d' = revokedAt d
              ∧ revokeReason d' = revokeReason d)
  ∧ (∀ other, other ≠ id →
              updateLastAuth devices id now !! other = devices !! other)
  ∧ (devices !! id = None → updateLastAuth devices id now = devices).
Proof.
  split; [| split].
  - intros d Hd _. unfold updateLastAuth. rewrite (getSlot_own _ _ _ Hd).
    eexists. split; [apply lookup_insert_eq |]. cbn. repeat split.
  - intros other Hne. now apply updateLastAuth_other.
  - intros Hnone. unfold updateLastAuth, getSlot. rewrite Hnone.
    now destruct (bool_decide _).
Qed.

Lemma updateLastAuth_counts_one_witness :
  ∃ d', updateLastAuth sampleRegistry sampleId sampleNow !! sampleId = Some d'
        ∧ lastAuthAt d' = Some sampleNow
        ∧ authCount d' = 4%Z.
Proof.
  destruct (proj1 (updateLastAuth_counts_one sampleRegistry sampleId sampleNow)
              sampleDevice)
    as (d' & Hd' & Hlast & Hcount & _).
  - vm_compute. reflexivity.
  - vm_compute. split; [discriminate | reflexivity].
  - exists d'. repeat split; assumption.
Defined.

Lemma revokeDevice_own devices id d reason now :
  getSlot devices id = Own d →
  revokeDevice devices id reason now
  = (Return tt,
     <[id := mkDevice (deviceId d) (secret d) revoked (registeredAt d)
                      (lastAuthAt d) (authCount d) (metadata d) (Some now)
                      (Some (default [] reason))]> devices).
Proof. intros Hslot. unfold revokeDevice. now rewrite Hslot. Qed.

Lemma revokeDevice_not_own devices id reason now :
  (∀ d, getSlot devices id ≠ Own d) →
  snd (revokeDevice devices id reason now) = devices.
Proof.
  intros Hslot. unfold revokeDevice.
  destruct (getSlot devices id) as [d | |]; [now destruct (Hslot d) | |];
    reflexivity.
Qed.

(** X9: revoking again is allowed and the latest call wins: two
    revocations
    of one identifier leave the registry exactly as the second alone would,
    with its reason and its time, and the second call returns as the first
    did. *)
Theorem revokeDevice_latest_wins devices id reason1 now1 reason2 now2 :
  snd (revokeDevice (snd (revokeDevice devices id reason1 now1)) id reason2 now2)
  = snd (revokeDevice devices id reason2 now2)
  ∧ fst (revokeDevice (snd (revokeDevice devices id reason1 now1)) id reason2 now2)
    = fst (revokeDevice devices id reason1 now1).
Proof.
  destruct (getSlot devices id) as [d | |] eqn:Hslot.
  - rewrite !(revokeDevice_own _ _ _ _ _ Hslot). cbn [fst snd].
    erewrite revokeDevice_own
      by (rewrite getSlot_insert; destruct (decide (id = id));
          [reflexivity | congruence]).
    cbn. now rewrite insert_insert_eq.
  - unfold revokeDevice. rewrite Hslot. cbn. now rewrite Hslot.
  - unfold revokeDevice. rewrite Hslot. cbn. now rewrite Hslot.
Qed.

(** X10: recording an authentication and revoking commute, on one device as
    on
    two: the registry reached does not depend on which came first. *)
Theorem updateLastAuth_revokeDevice_commute devices a reason nowA b nowB :
  updateLastAuth (snd (revokeDevice devices a reason nowA)) b nowB
  = snd (revokeDevice (updateLastAuth devices b nowB) a reason nowA).
Proof.
  unfold revokeDevice at 1.
  destruct (getSlot devices a) as [da | |] eqn:Ha; cbn [snd].
  - unfold updateLastAuth at 1. rewrite getSlot_insert.
    destruct (decide (a = b)) as [<- | Hne].
    + unfold updateLastAuth. rewrite Ha.
      unfold revokeDevice. rewrite getSlot_insert.
      destruct (decide (a = a)); [| congruence]. cbn.
      now rewrite !insert_insert_eq.
    + unfold updateLastAuth. destruct (getSlot devices b) as [db | |] eqn:Hb.
      * unfold revokeDevice. rewrite getSlot_insert.
        destruct (decide (b = a)); [congruence |]. rewrite Ha. cbn.
        now apply insert_insert_ne.
      * unfold revokeDevice. now rewrite Ha.
      * unfold revokeDevice. now rewrite Ha.
  - unfold updateLastAuth. destruct (getSlot devices b) as [db | |] eqn:Hb.
    + unfold revokeDevice. rewrite getSlot_insert.
      destruct (decide (b = a)) as [-> | Hne]; [congruence |]. now rewrite Ha.
    + unfold revokeDevice. now rewrite Ha.
    + unfold revokeDevice. now rewrite Ha.
  - unfold updateLastAuth. destruct (getSlot devices b) as [db | |] eqn:Hb.
    + unfold revokeDevice. rewrite getSlot_insert.
      destruct (decide (b = a)) as [-> | Hne]; [congruence |]. now rewrite Ha.
    + unfold revokeDevice. now rewrite Ha.
    + unfold revokeDevice. now rewrite Ha.
Qed.

(** ** What every run of the server preserves *)

Section Runs.
Variable unicodeUpper : N -> list N.
Variable SERVER_SECRET : jsstring.
Variable development : bool.

#[local] Abbreviation run := (exec unicodeUpper SERVER_SECRET development).
#[local] Abbreviation runAll := (execAll unicodeUpper SERVER_SECRET development).

Lemma postRegister_registry devices raw metadata random now :
  snd (postRegister devices raw metadata random now) = devices
  ∨ snd (postRegister devices raw metadata random now)
    = snd (registerDevice devices (default [] raw) metadata random now).
Proof.
  unfold postRegister. destruct (falsyStr raw); [now left |].
  right. now destruct (registerDevice _ _ _ _ _) as [[? | ?] ?].
Qed.

Lemma postRevoke_registry devices raw reason now :
  snd (postRevoke devices raw reason now) = devices
  ∨ snd (postRevoke devices raw reason now)
    = snd (revokeDevice devices (default [] raw) reason now).
Proof.
  unfold postRevoke. destruct (falsyStr raw); [now left |].
  right. now destruct (revokeDevice _ _ _ _) as [[? | ?] ?].
Qed.

(** Whatever the three mutators of the model preserve, every call, and so
    every run, preserves. *)
Lemma exec_preserves (P : registry → Prop) :
  (∀ devices id metadata random now,
      P devices → P (snd (registerDevice devices id metadata random now))) →
  (∀ devices id now, P devices → P (updateLastAuth devices id now)) →
  (∀ devices id reason now,
      P devices → P (snd (revokeDevice devices id reason now))) →
  ∀ devices c, P devices → P (run devices c).
Proof.
  intros Hreg Hupd Hrev devices c H.
  destruct c as [id meta random now | | id now | id reason now | | |
                 issuer req nowMs nowIso | raw meta random now |
                 raw reason now | |]; cbn [exec]; auto.
  - destruct (postToken_registry unicodeUpper SERVER_SECRET development
                issuer devices req nowMs nowIso) as [-> | ->]; auto.
  - destruct (postRegister_registry devices raw meta random now) as [-> | ->];
      auto.
  - destruct (postRevoke_registry devices raw reason now) as [-> | ->]; auto.
Qed.

Lemma execAll_preserves (P : registry → Prop) :
  (∀ devices id metadata random now,
      P devices → P (snd (registerDevice devices id metadata random now))) →
  (∀ devices id now, P devices → P (updateLastAuth devices id now)) →
  (∀ devices id reason now,
      P devices → P (snd (revokeDevice devices id reason now))) →
  ∀ calls devices, P devices → P (runAll devices calls).
Proof.
  intros Hreg Hupd Hrev. unfold execAll.
  induction calls as [| c calls IH]; intros devices H; cbn [fold_left];
    [exact H |].
  apply IH. now apply exec_preserves.
Qed.

#[local] Ltac fields :=
  cbn [deviceId secret status registeredAt lastAuthAt authCount metadata
       revokedAt revokeReason].

Lemma wellFormed_insert devices id d :
  wellFormed devices → wellFormedDevice id d → wellFormed (<[id := d]> devices).
Proof.
  intros Hwf Hd k dk. destruct (decide (id = k)) as [<- | Hne].
  - rewrite lookup_insert_eq. now intros [= <-].
  - rewrite lookup_insert_ne by exact Hne. apply Hwf.
Qed.

Lemma registerDevice_wellFormed devices id metadata random now :
  wellFormed devices →
  wellFormed (snd (registerDevice devices id metadata random now)).
Proof.
  intros Hwf. unfold registerDevice.
  destruct (getSlot devices id) eqn:Hslot; cbn [snd]; try exact Hwf.
  apply wellFormed_insert; [exact Hwf |].
  unfold getSlot in Hslot. destruct (devices !! id); [discriminate |].
  destruct (bool_decide (id ∈ protoKeys)) eqn:Hproto; [discriminate |].
  apply bool_decide_eq_false in Hproto.
  constructor; fields; try done.
  - apply buildMetadata_keys. now left.
  - apply buildMetadata_keys. right. now left.
  - apply toHex_digits.
Qed.

Lemma updateLastAuth_wellFormed devices id now :
  wellFormed devices → wellFormed (updateLastAuth devices id now).
Proof.
  intros Hwf. unfold updateLastAuth.
  destruct (getSlot devices id) as [d | |] eqn:Hslot; try exact Hwf.
  apply getSlot_own_inv in Hslot. destruct (Hwf _ _ Hslot).
  apply wellFormed_insert; [exact Hwf |].
  constructor; fields; try done.
  - lia.
  - split; [discriminate | lia].
Qed.

Lemma revokeDevice_wellFormed devices id reason now :
  wellFormed devices → wellFormed (snd (revokeDevice devices id reason now)).
Proof.
  intros Hwf. unfold revokeDevice.
  destruct (getSlot devices id) as [d | |] eqn:Hslot; cbn [snd]; try exact Hwf.
  apply getSlot_own_inv in Hslot. destruct (Hwf _ _ Hslot).
  apply wellFormed_insert; [exact Hwf |].
  constructor; fields; try done.
Qed.

Lemma execAll_wellFormed calls devices :
  wellFormed devices → wellFormed (runAll devices calls).
Proof.
  apply execAll_preserves.
  - intros; now apply registerDevice_wellFormed.
  - intros; now apply updateLastAuth_wellFormed.
  - intros; now apply revokeDevice_wellFormed.
Qed.

Lemma wellFormed_empty : wellFormed ∅.
Proof. intros k d Hk. now rewrite lookup_empty in Hk. Qed.

(** X11: in a registry the server has built up from an empty one, by any
    sequence of calls, no device is ever suspended, and a device is revoked
    exactly when it carries a revokedAt, which comes with a revokeReason. *)
Theorem reachable_lifecycle calls k d :
  execAll unicodeUpper SERVER_SECRET development ∅ calls !! k = Some d →
  status d ≠ suspended
  ∧ (status d = revoked ↔ is_Some (revokedAt d))
  ∧ (is_Some (revokedAt d) ↔ is_Some (revokeReason d)).
Proof.
  intros Hk. destruct (execAll_wellFormed calls ∅ wellFormed_empty _ _ Hk).
  auto.
Qed.

(** X12: in a registry the server has built up from an empty one, every
    authCount is non-negative, and a device has
    no lastAuthAt exactly when its authCount is zero. *)
Theorem reachable_counters calls k d :
  execAll unicodeUpper SERVER_SECRET development ∅ calls !! k = Some d →
  (0 <= authCount d)%Z ∧ (lastAuthAt d = None ↔ authCount d = 0%Z).
Proof.
  intros Hk. destruct (execAll_wellFormed calls ∅ wellFormed_empty _ _ Hk).
  auto.
Qed.

(** X13: in a registry the server has built up from an empty one, every
    record is stored under its own deviceId,
    which is never the name of an inherited built-in; its secret is made of
    hexadecimal digits, and its metadata holds both the firmwareVersion and
    the hardwareVersion key. *)
Theorem reachable_records calls k d :
  execAll unicodeUpper SERVER_SECRET development ∅ calls !! k = Some d →
  deviceId d = k
  ∧ (k ∉ protoKeys)
  ∧ Forall (λ c, Crypto.isHexDigit c = true) (secret d)
  ∧ is_Some (metadata d !! FIRMWARE_VERSION)
  ∧ is_Some (metadata d !! HARDWARE_VERSION).
Proof.
  intros Hk. destruct (execAll_wellFormed calls ∅ wellFormed_empty _ _ Hk).
  auto.
Qed.

(** *** Records over time *)

Lemma evolvesTo_refl d : evolvesTo d d.
Proof. constructor; auto. lia. Qed.

Lemma evolvesTo_trans d1 d2 d3 : evolvesTo d1 d2 → evolvesTo d2 d3 → evolvesTo d1 d3.
Proof.
  intros [] []. constructor; try congruence; try lia.
  - destruct ev_status1 as [H | H]; [| now right].
    rewrite H. destruct ev_status0; auto.
  - auto.
Qed.

(** X14: no call deletes a record or rewrites its identity: a device
    present
    before a run is present after it with the same deviceId, secret,
    registeredAt and metadata; its authCount has not decreased; its status is
    what it was or has become revoked, and stays revoked if it was. *)
Theorem records_persist_and_evolve devices calls id d :
  devices !! id = Some d →
  ∃ d', execAll unicodeUpper SERVER_SECRET development devices calls !! id
        = Some d'
        ∧ evolvesTo d d'.
Proof.
  intros Hd.
  apply (execAll_preserves
           (λ r, ∃ d', r !! id = Some d' ∧ evolvesTo d d')); clear calls.
  - intros r k metadata random now (d' & Hd' & Hev).
    destruct (decide (id = k)) as [<- | Hne].
    + rewrite (registerDevice_existing _ _ _ _ _ _ Hd'). eauto.
    + rewrite registerDevice_other by exact Hne. eauto.
  - intros r k now (d' & Hd' & Hev).
    destruct (decide (id = k)) as [<- | Hne].
    + unfold updateLastAuth. rewrite (getSlot_own _ _ _ Hd').
      eexists. split; [apply lookup_insert_eq |].
      eapply evolvesTo_trans; [exact Hev |].
      constructor; fields; auto. lia.
    + rewrite updateLastAuth_other by exact Hne. eauto.
  - intros r k reason now (d' & Hd' & Hev).
    destruct (decide (id = k)) as [<- | Hne].
    + rewrite (revokeDevice_own _ _ _ _ _ (getSlot_own _ _ _ Hd')). cbn [snd].
      eexists. split; [apply lookup_insert_eq |].
      eapply evolvesTo_trans; [exact Hev |].
      constructor; fields; auto. lia.
    + rewrite revokeDevice_other by exact Hne. eauto.
  - exists d. split; [exact Hd | apply evolvesTo_refl].
Qed.

End Runs.

(** To show a property of what a lookup finds, it is enough to compute
    that it finds something. *)
Lemma option_case {A} (P : A → Prop) (o : option A) :
  match o with Some _ => true | None => false end = true →
  (∀ a, o = Some a → P a) →
  match o with Some a => P a | None => False end.
Proof. destruct o as [a |]; [auto | discriminate]. Defined.

Lemma reachable_lifecycle_witness :
  match execAll caselessBeyondAscii sampleKey false ∅ sampleRun !! sampleId with
  | Some d => status d ≠ suspended
              ∧ (status d = revoked ↔ is_Some (revokedAt d))
              ∧ (is_Some (revokedAt d) ↔ is_Some (revokeReason d))
  | None => False
  end.
Proof.
  apply option_case; [vm_compute; reflexivity |]. intros d Hd.
  exact (reachable_lifecycle caselessBeyondAscii sampleKey false
           sampleRun sampleId d Hd).
Defined.

Lemma reachable_counters_witness :
  match execAll caselessBeyondAscii sampleKey false ∅ sampleRun !! sampleId with
  | Some d => (0 <= authCount d)%Z ∧ (lastAuthAt d = None ↔ authCount d = 0%Z)
  | None => False
  end.
Proof.
  apply option_case; [vm_compute; reflexivity |]. intros d Hd.
  exact (reachable_counters caselessBeyondAscii sampleKey false
           sampleRun sampleId d Hd).
Defined.

Lemma reachable_records_witness :
  match execAll caselessBeyondAscii sampleKey false ∅ sampleRun
        !! str "5C:CF:7F:12:34:56" with
  | Some d => deviceId d = str "5C:CF:7F:12:34:56"
              ∧ (str "5C:CF:7F:12:34:56" ∉ protoKeys)
              ∧ Forall (λ c, Crypto.isHexDigit c = true) (secret d)
              ∧ is_Some (metadata d !! FIRMWARE_VERSION)
              ∧ is_Some (metadata d !! HARDWARE_VERSION)
  | None => False
  end.
Proof.
  apply option_case; [vm_compute; reflexivity |]. intros d Hd.
  exact (reachable_records caselessBeyondAscii sampleKey false
           sampleRun (str "5C:CF:7F:12:34:56") d Hd).
Defined.

Lemma records_persist_and_evolve_witness :
  ∃ d', execAll caselessBeyondAscii sampleKey false sampleRegistry sampleRun
        !! sampleId = Some d'
        ∧ evolvesTo sampleDevice d'.
Proof.
  apply (records_persist_and_evolve caselessBeyondAscii sampleKey false
           sampleRegistry sampleRun sampleId sampleDevice).
  vm_compute. reflexivity.
Defined.

(** ** Verification and the token route, case by case *)

Section TokenCases.
Variable unicodeUpper : N -> list N.
Variable SERVER_SECRET : jsstring.
Variable development : bool.

Lemma verifyDevice_accepted devices id provided device :
  accepts SERVER_SECRET devices id provided device →
  verifyDevice SERVER_SECRET devices id provided
  = Return (AuthVerified id, Some device).
Proof.
  intros (Hd & Hst & Hmac). unfold verifyDevice.
  rewrite (getSlot_own _ _ _ Hd), Hst, verifySecret_total.
  rewrite bool_decide_eq_false_2 by auto.
  now rewrite bool_decide_eq_true_2.
Qed.

Lemma verifyDevice_found_accepts devices id provided line device :
  verifyDevice SERVER_SECRET devices id provided = Return (line, Some device) →
  accepts SERVER_SECRET devices id provided device.
Proof.
  intros Hver.
  destruct (verifyDevice_found _ _ _ _ _ _ Hver) as (Hd & Hst & _).
  split; [exact Hd | split; [exact Hst |]].
  unfold verifyDevice in Hver. rewrite (getSlot_own _ _ _ Hd), Hst in Hver.
  rewrite bool_decide_eq_false_2 in Hver by auto.
  rewrite verifySecret_total in Hver.
  destruct (bool_decide _) eqn:Hmac in Hver; [| discriminate].
  now apply bool_decide_eq_true in Hmac.
Qed.

(** X17: the token route reads the identifier only through its canonical
    form:
    two requests whose identifiers are spelled differently but normalize to
    the same string, and which agree otherwise, get the same response and
    leave the same registry and log. *)
Theorem postToken_spelling_insensitive
    issuer devices raw1 raw2 provided hint nowMs nowIso :
  raw1 ≠ [] → raw2 ≠ [] →
  normalizedDeviceId unicodeUpper raw1 = normalizedDeviceId unicodeUpper raw2 →
  postToken unicodeUpper SERVER_SECRET development issuer devices
            (mkTokenRequest (Some raw1) provided hint) nowMs nowIso
  = postToken unicodeUpper SERVER_SECRET development issuer devices
              (mkTokenRequest (Some raw2) provided hint) nowMs nowIso.
Proof.
  intros H1 H2 Heq. unfold postToken.
  cbn [reqDeviceId reqSecret reqFirmwareVersion].
  rewrite (falsyStr_present raw1 H1), (falsyStr_present raw2 H2).
  cbn [from_option id]. now rewrite Heq.
Qed.

(** X18: outside development mode no response of the token route carries
    the
    text of an internal error: every error body is the bare error label. *)
Theorem postToken_hides_messages_in_production
    issuer devices req nowMs nowIso label message :
  body (fst (fst (postToken unicodeUpper SERVER_SECRET false issuer devices
                            req nowMs nowIso)))
  = ErrorBody label message →
  message = None.
Proof.
  unfold postToken.
  destruct (falsyStr (reqDeviceId req) || falsyStr (reqSecret req));
    [cbn; now intros [= _ <-] |].
  destruct (verifyDevice _ _ _ _) as [[l [dev |]] | e];
    [| cbn; now intros [= _ <-] | cbn; now intros [= _ <-]].
  destruct (issuer _ _); cbn; [discriminate | now intros [= _ <-]].
Qed.

(** X19: N token requests for one active device, each with a secret
    that verifies and an issuer that answers, one after the other, raise its
    authCount by exactly N and leave it active with its secret, as long as
    the count stays within the range the runtime counts exactly, from -2^53
    to 2^53. *)
Theorem authCount_counts_successful_tokens calls devices id d :
  devices !! id = Some d →
  status d = active →
  (- MAX_COUNT <= authCount d)%Z →
  (authCount d + Z.of_nat (length calls) <= MAX_COUNT)%Z →
  Forall (successfulTokenCall unicodeUpper SERVER_SECRET id (secret d)) calls →
  ∃ d', execAll unicodeUpper SERVER_SECRET development devices calls !! id
        = Some d'
        ∧ authCount d' = (authCount d + Z.of_nat (length calls))%Z
        ∧ status d' = active
        ∧ secret d' = secret d.
Proof.
  intros Hd Hst _ _ Hcalls. revert devices d Hd Hst Hcalls. unfold execAll.
  induction calls as [| c calls IH]; intros devices d Hd Hst Hcalls.
  - exists d. cbn. repeat split; [exact Hd | lia | exact Hst].
  - apply Forall_cons in Hcalls as [Hc Hcalls].
    destruct Hc as (issuer & raw & provided & hint & nowMs & nowIso
                    & -> & Hraw & Hprov & Hid & Hmac & Hiss).
    cbn [fold_left exec].
    rewrite (postToken_present unicodeUpper SERVER_SECRET development
               _ _ _ _ _ _ _ Hraw Hprov).
    rewrite Hid.
    rewrite (verifyDevice_accepted devices id provided d)
      by (split; [exact Hd | split; [exact Hst | exact Hmac]]).
    destruct (Hiss (mkClaims (str "esp8266") id
                             [str "switches:read"; str "switches:write"]
                             (claimedFirmware hint d) nowMs))
      as (customToken & ->).
    cbn [fst snd].
    rewrite (updateLastAuth_own _ _ _ nowIso Hd).
    set (d1 := mkDevice (deviceId d) (secret d) (status d) (registeredAt d)
                        (Some nowIso) (authCount d + 1)%Z (metadata d)
                        (revokedAt d) (revokeReason d)).
    destruct (IH (<[id := d1]> devices) d1) as (d' & Hd' & Hcount' & Hst' & Hsec').
    + apply lookup_insert_eq.
    + exact Hst.
    + exact Hcalls.
    + exists d'. split; [exact Hd' |]. split; [| split; [exact Hst' | exact Hsec']].
      rewrite Hcount'. cbn [d1 authCount length]. lia.
Qed.

(** X20: the claims of a token always name a firmware version for a device
    of
    a registry built from the empty one: the hint of the request when it is
    truthy, the version stored with the device otherwise. *)
Theorem token_claims_carry_firmware calls k d hint :
  execAll unicodeUpper SERVER_SECRET development ∅ calls !! k = Some d →
  is_Some (firmwareVersion (additionalClaims k hint d 0))
  ∧ (∀ v, hint = Some v → truthy v = true →
          firmwareVersion (additionalClaims k hint d 0) = Some v)
  ∧ ((∀ v, hint = Some v → truthy v = false) →
     firmwareVersion (additionalClaims k hint d 0)
     = metadata d !! FIRMWARE_VERSION).
Proof.
  intros Hk.
  pose proof (wf_firmware _ _
                (execAll_wellFormed unicodeUpper SERVER_SECRET development
                   calls ∅ wellFormed_empty _ _ Hk)) as Hfw.
  cbn [additionalClaims firmwareVersion]. unfold claimedFirmware.
  split; [| split].
  - destruct hint as [v |]; [destruct (truthy v) |]; eauto.
  - intros v -> Hv. now rewrite Hv.
  - intros Hfalsy. destruct hint as [v |]; [| reflexivity].
    now rewrite (Hfalsy v eq_refl).
Qed.

End TokenCases.

Lemma postToken_spelling_insensitive_witness :
  postToken caselessBeyondAscii sampleKey false issuerUp sampleRegistry
            (mkTokenRequest (Some (str "aa-bb-cc-dd-ee-ff"))
                            (Some (secret sampleDevice)) None)
            1706745600000 sampleNow
  = postToken caselessBeyondAscii sampleKey false issuerUp sampleRegistry
              (mkTokenRequest (Some sampleId) (Some (secret sampleDevice)) None)
              1706745600000 sampleNow.
Proof.
  apply (postToken_spelling_insensitive caselessBeyondAscii sampleKey false).
  - discriminate.
  - discriminate.
  - vm_compute. reflexivity.
Defined.

Lemma postToken_hides_messages_in_production_witness :
  body (fst (fst (postToken caselessBeyondAscii sampleKey false issuerDown
                            sampleRegistry
                            (mkTokenRequest (Some sampleId)
                                            (Some (secret sampleDevice)) None)
                            1706745600000 sampleNow)))
  = ErrorBody (str "Failed to create token") None
  ∧ (None : option jsstring) = None.
Proof.
  assert (body (fst (fst (postToken caselessBeyondAscii sampleKey false issuerDown
                            sampleRegistry
                            (mkTokenRequest (Some sampleId)
                                            (Some (secret sampleDevice)) None)
                            1706745600000 sampleNow)))
          = ErrorBody (str "Failed to create token") None) as Hbody
    by (vm_compute; reflexivity).
  exact (conj Hbody
           (postToken_hides_messages_in_production caselessBeyondAscii sampleKey
              issuerDown sampleRegistry _ _ _ _ _ Hbody)).
Defined.

Lemma authCount_counts_successful_tokens_witness :
  ∃ d', execAll caselessBeyondAscii sampleKey false sampleRegistry
          [ PostToken issuerUp
              (mkTokenRequest (Some (str "aa-bb-cc-dd-ee-ff"))
                              (Some (secret sampleDevice)) None)
              1706745600000%Z sampleNow;
            PostToken issuerUp
              (mkTokenRequest (Some sampleId) (Some (secret sampleDevice))
                              (Some (VStr (str "1.2.3"))))
              1706745601000%Z sampleNow ]
        !! sampleId = Some d'
        ∧ authCount d' = (authCount sampleDevice + Z.of_nat 2)%Z
        ∧ status d' = active
        ∧ secret d' = secret sampleDevice.
Proof.
  apply (authCount_counts_successful_tokens caselessBeyondAscii sampleKey false).
  - vm_compute. reflexivity.
  - reflexivity.
  - vm_compute. discriminate.
  - vm_compute. discriminate.
  - repeat constructor.
    + exists issuerUp, (str "aa-bb-cc-dd-ee-ff"), (secret sampleDevice), None,
        1706745600000%Z, sampleNow.
      repeat split; try discriminate. intros claims. eexists. reflexivity.
    + exists issuerUp, sampleId, (secret sampleDevice),
        (Some (VStr (str "1.2.3"))), 1706745601000%Z, sampleNow.
      repeat split; try discriminate. intros claims. eexists. reflexivity.
Defined.

Lemma token_claims_carry_firmware_witness :
  match execAll caselessBeyondAscii sampleKey false ∅ sampleRun !! sampleId with
  | Some d => is_Some (firmwareVersion (additionalClaims sampleId None d 0))
  | None => False
  end.
Proof.
  apply option_case; [vm_compute; reflexivity |]. intros d Hd.
  exact (proj1 (token_claims_carry_firmware caselessBeyondAscii sampleKey false
                  sampleRun sampleId d None Hd)).
Defined.

(** ** The admin routes and the verification route *)

(** X24: the verification route answers 400 when no token is given, 200
    with
    the token's uid as deviceId when the issuer accepts the token, and 401
    with the issuer's own error message, in every environment, when it
    rejects it. *)
Theorem postVerify_cases verifyIdToken idToken :
  (falsyStr idToken = true
   ∧ postVerify verifyIdToken idToken
     = (400%Z, VerifyMissing (str "Missing idToken")))
  ∨ (falsyStr idToken = false
     ∧ ∃ decoded, verifyIdToken (default [] idToken) = Return decoded
                  ∧ postVerify verifyIdToken idToken
                    = (200%Z, VerifyValid (uid decoded) decoded))
  ∨ (falsyStr idToken = false
     ∧ ∃ message, verifyIdToken (default [] idToken) = Throw message
                  ∧ postVerify verifyIdToken idToken
                    = (401%Z, VerifyInvalid message)).
Proof.
  unfold postVerify. destruct (falsyStr idToken); [now left |]. right.
  destruct (verifyIdToken (default [] idToken)) as [decoded | message] eqn:Hv.
  - left. split; [reflexivity |]. now exists decoded.
  - right. split; [reflexivity |]. now exists message.
Qed.

(** ** The token route on request bodies of any shape *)

Lemma verifyDeviceRaw_string key invalidKey invalidData devices id provided :
  verifyDeviceRaw (Some key) invalidKey invalidData devices id (JString provided)
  = verifyDevice key devices id provided.
Proof. reflexivity. Qed.

Lemma falsy_ofString s : falsy (ofString s) = falsyStr s.
Proof. destruct s as [[| c s] |]; reflexivity. Qed.

(** With a server key and string fields the route is [postToken]. *)
Lemma postTokenRaw_strings unicodeUpper key development issuer
    invalidKey invalidData notAFunction devices deviceId secret hint nowMs nowIso :
  postTokenRaw unicodeUpper (Some key) development issuer invalidKey invalidData
               notAFunction devices
               (mkRawTokenRequest (ofString deviceId) (ofString secret) hint)
               nowMs nowIso
  = postToken unicodeUpper key development issuer devices
              (mkTokenRequest deviceId secret hint) nowMs nowIso.
Proof.
  unfold postTokenRaw, postToken.
  cbn [rawDeviceId rawSecret rawFirmwareVersion
       reqDeviceId reqSecret reqFirmwareVersion].
  rewrite !falsy_ofString.
  destruct deviceId as [deviceId |]; [| reflexivity].
  destruct secret as [secret |]; [| now rewrite orb_true_r].
  destruct (falsyStr (Some deviceId) || falsyStr (Some secret)); reflexivity.
Qed.

Section RawTokenRoute.
Variable unicodeUpper : N -> list N.
Variable SERVER_SECRET : option jsstring.
Variable development : bool.
Variable invalidKey : jsstring.
Variable invalidData : jsonValue -> jsstring.
Variable notAFunction : jsonValue -> jsstring.

(** The ways a verification ends, by what the store, the environment and
    the secret are. *)
Lemma verifyDeviceRaw_cases devices id providedSecret :
  ((∀ d, devices !! id = Some d → status d ≠ active)
   ∧ ∃ line, isFailure line = true
             ∧ verifyDeviceRaw SERVER_SECRET invalidKey invalidData
                               devices id providedSecret
               = Return (line, None))
  ∨ (∃ d, devices !! id = Some d ∧ status d = active
          ∧ SERVER_SECRET = None
          ∧ verifyDeviceRaw SERVER_SECRET invalidKey invalidData
                            devices id providedSecret
            = Throw invalidKey)
  ∨ (∃ d key, devices !! id = Some d ∧ status d = active
              ∧ SERVER_SECRET = Some key
              ∧ (∀ s, providedSecret ≠ JString s)
              ∧ verifyDeviceRaw SERVER_SECRET invalidKey invalidData
                                devices id providedSecret
                = Throw (invalidData providedSecret))
  ∨ (∃ d key provided,
        devices !! id = Some d ∧ status d = active
        ∧ SERVER_SECRET = Some key
        ∧ providedSecret = JString provided
        ∧ Crypto.hmacSha256 key provided ≠ Crypto.hmacSha256 key (secret d)
        ∧ verifyDeviceRaw SERVER_SECRET invalidKey invalidData
                          devices id providedSecret
          = Return (InvalidSecret id, None))
  ∨ (∃ d key provided,
        SERVER_SECRET = Some key
        ∧ providedSecret = JString provided
        ∧ accepts key devices id provided d
        ∧ verifyDeviceRaw SERVER_SECRET invalidKey invalidData
                          devices id providedSecret
          = Return (AuthVerified id, Some d)).
Proof.
  unfold verifyDeviceRaw.
  destruct (getSlot devices id) as [d | |] eqn:Hslot.
  - apply getSlot_own_inv in Hslot.
    destruct (decide (status d = active)) as [Hst | Hst].
    + rewrite bool_decide_eq_false_2 by auto. right.
      destruct SERVER_SECRET as [key |]; [| left; now exists d].
      right.
      destruct providedSecret as [[| b | z | provided] | items | members];
        try (left; exists d, key; repeat split; auto; discriminate).
      right. rewrite verifySecret_total.
      destruct (decide (Crypto.hmacSha256 key provided
                        = Crypto.hmacSha256 key (secret d))) as [Hmac | Hmac].
      * right. rewrite bool_decide_eq_true_2 by exact Hmac.
        exists d, key, provided. repeat split; auto.
      * left. rewrite bool_decide_eq_false_2 by exact Hmac.
        exists d, key, provided. repeat split; auto.
    + rewrite bool_decide_eq_true_2 by exact Hst. left. split.
      * intros d' Hd'. congruence.
      * eexists. split; [| reflexivity]. reflexivity.
  - left. split.
    + intros d Hd. apply getSlot_own in Hd. congruence.
    + eexists. split; [| reflexivity]. reflexivity.
  - left. split.
    + intros d Hd. apply getSlot_own in Hd. congruence.
    + eexists. split; [| reflexivity]. reflexivity.
Qed.

(** X15: verifyDevice, as the token route calls it on a canonical
    identifier.  It throws exactly when an active device is registered
    under the identifier and either the server key is unset or the provided
    secret is not a string; it returns a device exactly when the key is set,
    the secret is a string, and the record under the identifier is active
    with a stored secret of the same digest, and then it returns that
    record; in every other case it returns null and logs a failure.  The
    stored secret itself verifies an active device. *)
Theorem verifyDevice_accepts_iff devices raw providedSecret :
  let id := normalizedDeviceId unicodeUpper raw in
  (∀ e, verifyDeviceRaw SERVER_SECRET invalidKey invalidData
                        devices id providedSecret = Throw e
        ↔ (∃ d, devices !! id = Some d ∧ status d = active)
          ∧ (SERVER_SECRET = None ∧ e = invalidKey
             ∨ is_Some SERVER_SECRET
               ∧ (∀ s, providedSecret ≠ JString s)
               ∧ e = invalidData providedSecret))
  ∧ (∀ device,
       (∃ line, verifyDeviceRaw SERVER_SECRET invalidKey invalidData
                                devices id providedSecret
                = Return (line, Some device))
       ↔ ∃ key provided, SERVER_SECRET = Some key
                         ∧ providedSecret = JString provided
                         ∧ accepts key devices id provided device)
  ∧ (∀ line, verifyDeviceRaw SERVER_SECRET invalidKey invalidData
                             devices id providedSecret
             = Return (line, None) →
             isFailure line = true)
  ∧ (∀ key device,
       SERVER_SECRET = Some key →
       devices !! id = Some device → status device = active →
       verifyDeviceRaw SERVER_SECRET invalidKey invalidData
                       devices id (JString (secret device))
       = Return (AuthVerified id, Some device)).
Proof.
  intros id.
  pose proof (verifyDeviceRaw_cases devices id providedSecret) as Hcases.
  split; [| split; [| split]].
  - intros e. split.
    + intros He. rewrite He in Hcases.
      destruct Hcases as [(_ & line & _ & H)
                         | [(d & Hd & Hst & Hkey & H)
                         | [(d & key & Hd & Hst & Hkey & Hno & H)
                         | [(d & key & p & _ & _ & _ & _ & _ & H)
                         | (d & key & p & _ & _ & _ & H)]]]];
        try discriminate H.
      * injection H as ->. split; [eauto |]. now left.
      * injection H as ->. split; [eauto |]. right.
        rewrite Hkey. repeat split; eauto.
    + intros ((d & Hd & Hst) & Hwhy).
      destruct Hcases as [(Hnone & _)
                         | [(d' & _ & _ & Hkey & H)
                         | [(d' & key & _ & _ & Hkey & Hno & H)
                         | [(d' & key & p & _ & _ & Hkey & Hp & _ & H)
                         | (d' & key & p & Hkey & Hp & _ & H)]]]].
      * now destruct (Hnone d Hd).
      * rewrite H. destruct Hwhy as [[_ ->] | ([k Hk] & _)]; [reflexivity |].
        congruence.
      * rewrite H. destruct Hwhy as [[Hk _] | (_ & _ & ->)]; [congruence |].
        reflexivity.
      * destruct Hwhy as [[Hk _] | (_ & Hno & _)]; [congruence |].
        now destruct (Hno p).
      * destruct Hwhy as [[Hk _] | (_ & Hno & _)]; [congruence |].
        now destruct (Hno p).
  - intros device. split.
    + intros (line & Hret). rewrite Hret in Hcases.
      destruct Hcases as [(_ & l & _ & H)
                         | [(d & _ & _ & _ & H)
                         | [(d & key & _ & _ & _ & _ & H)
                         | [(d & key & p & _ & _ & _ & _ & _ & H)
                         | (d & key & p & Hkey & Hp & Hacc & H)]]]];
        try discriminate H.
      injection H as _ ->. eauto.
    + intros (key & provided & Hkey & Hp & Hacc).
      exists (AuthVerified id). rewrite Hkey, Hp.
      rewrite verifyDeviceRaw_string. now apply verifyDevice_accepted.
  - intros line Hret. rewrite Hret in Hcases.
    destruct Hcases as [(_ & l & Hl & H)
                       | [(d & _ & _ & _ & H)
                       | [(d & key & _ & _ & _ & _ & H)
                       | [(d & key & p & _ & _ & _ & _ & _ & H)
                       | (d & key & p & _ & _ & _ & H)]]]];
      try discriminate H.
    + now injection H as ->.
    + now injection H as ->.
  - intros key device Hkey Hd Hst. rewrite Hkey, verifyDeviceRaw_string.
    apply verifyDevice_accepted. now split.
Qed.

(** X16: the outcomes of a token request, whatever JSON values its
    deviceId and secret are, with a firmwareVersion that is a scalar or
    absent.
    A missing or falsy deviceId or secret gives 400 before anything is
    looked up.  A deviceId that is not a string gives 500.  Otherwise the
    canonical identifier is verified: no active device under it, or a string
    secret of another digest, gives 401 "Invalid credentials"; an active
    device with the key unset or a secret that is not a string gives 500; an
    accepted device gives 500 when the issuer fails and 200 with the
    issuer's token and a validity of 3600 seconds when it answers.  Only
    the last changes the registry, by one updateLastAuth on the canonical
    identifier. *)
Theorem postToken_cases issuer devices req nowMs nowIso :
  let result :=
    postTokenRaw unicodeUpper SERVER_SECRET development issuer invalidKey
                 invalidData notAFunction devices req nowMs nowIso in
  (falsy (rawDeviceId req) || falsy (rawSecret req) = true
   ∧ result = (missingFields, devices, []))
  ∨ (falsy (rawDeviceId req) || falsy (rawSecret req) = false
     ∧ ∃ other, rawDeviceId req = Some other
                ∧ (∀ s, other ≠ JString s)
                ∧ result = (failedToCreateToken development (notAFunction other),
                            devices, []))
  ∨ (falsy (rawDeviceId req) || falsy (rawSecret req) = false
     ∧ ∃ raw providedSecret,
         rawDeviceId req = Some (JString raw)
         ∧ rawSecret req = Some providedSecret
         ∧ let id := normalizedDeviceId unicodeUpper raw in
           ((((∀ d, devices !! id = Some d → status d ≠ active)
              ∨ ∃ d key provided,
                  devices !! id = Some d ∧ status d = active
                  ∧ SERVER_SECRET = Some key
                  ∧ providedSecret = JString provided
                  ∧ Crypto.hmacSha256 key provided
                    ≠ Crypto.hmacSha256 key (secret d))
             ∧ ∃ line, isFailure line = true
                       ∧ result = (invalidCredentials, devices, [line]))
            ∨ (∃ d message,
                  devices !! id = Some d ∧ status d = active
                  ∧ (SERVER_SECRET = None ∧ message = invalidKey
                     ∨ is_Some SERVER_SECRET
                       ∧ (∀ s, providedSecret ≠ JString s)
                       ∧ message = invalidData providedSecret)
                  ∧ result = (failedToCreateToken development message,
                              devices, []))
            ∨ (∃ key provided device message,
                  SERVER_SECRET = Some key
                  ∧ providedSecret = JString provided
                  ∧ accepts key devices id provided device
                  ∧ issuer id (additionalClaims id (rawFirmwareVersion req)
                                                device nowMs)
                    = Throw message
                  ∧ result = (failedToCreateToken development message,
                              devices, [AuthVerified id]))
            ∨ (∃ key provided device customToken,
                  SERVER_SECRET = Some key
                  ∧ providedSecret = JString provided
                  ∧ accepts key devices id provided device
                  ∧ issuer id (additionalClaims id (rawFirmwareVersion req)
                                                device nowMs)
                    = Return customToken
                  ∧ result
                    = (json (TokenBody customToken 3600
                                       (str "Authentication successful")),
                       updateLastAuth devices id nowIso,
                       [AuthVerified id])))).
Proof.
  intros result. subst result. unfold postTokenRaw.
  destruct (falsy (rawDeviceId req) || falsy (rawSecret req)) eqn:Hfalsy;
    [left; now split |].
  right. apply orb_false_iff in Hfalsy as [Hid Hsec].
  destruct (rawDeviceId req) as [deviceId |]; [| discriminate Hid].
  destruct (rawSecret req) as [providedSecret |]; [| discriminate Hsec].
  assert ((∃ raw, deviceId = JString raw) ∨ (∀ s, deviceId ≠ JString s))
    as [[raw ->] | Hother].
  { destruct deviceId as [[| b | z | raw] | items | members];
      try (right; intros s; discriminate). left. now exists raw. }
  2: { left. split; [reflexivity |]. exists deviceId.
       split; [reflexivity |]. split; [exact Hother |].
       destruct deviceId as [[| b | z | raw] | items | members];
         try reflexivity. now destruct (Hother raw). }
  right. split; [reflexivity |]. exists raw, providedSecret.
  split; [reflexivity |]. split; [reflexivity |].
  cbv zeta. cbn [from_option id]. change (JString raw) with (JScalar (VStr raw)).
  cbv iota beta.
  set (id := normalizedDeviceId unicodeUpper raw).
  destruct (verifyDeviceRaw_cases devices id providedSecret)
    as [(Hnone & line & Hline & ->)
       | [(d & Hd & Hst & Hkey & ->)
       | [(d & key & Hd & Hst & Hkey & Hno & ->)
       | [(d & key & p & Hd & Hst & Hkey & Hp & Hmac & ->)
       | (d & key & p & Hkey & Hp & Hacc & ->)]]]].
  - left. split; [now left |]. now exists line.
  - right. left. exists d, invalidKey. repeat split; auto.
  - right. left. exists d, (invalidData providedSecret).
    split; [exact Hd |]. split; [exact Hst |]. split; [| reflexivity].
    right. rewrite Hkey. repeat split; eauto.
  - left. split.
    + right. exists d, key, p. repeat split; auto.
    + exists (InvalidSecret id). now split.
  - right. right.
    change (mkClaims (str "esp8266") id
                     [str "switches:read"; str "switches:write"]
                     (claimedFirmware (rawFirmwareVersion req) d) nowMs)
      with (additionalClaims id (rawFirmwareVersion req) d nowMs).
    destruct (issuer id (additionalClaims id (rawFirmwareVersion req) d nowMs))
      as [customToken | message] eqn:Hiss.
    + right. exists key, p, d, customToken. repeat split; auto; apply Hacc.
    + left. exists key, p, d, message. repeat split; auto; apply Hacc.
Qed.

End RawTokenRoute.

(** C8: a secret that is no string tells devices apart.  With the number
    12345 as secret, a token request for a registered, active device is
    answered 500 "Failed to create token", while the same request for an
    unknown device, or for the same device once revoked, is answered 401
    "Invalid credentials"; none of the three gets a token or changes the
    registry. *)
Theorem nonstring_secret_tells_devices_apart
    unicodeUpper key development issuer invalidKey invalidData notAFunction
    nowMs nowIso :
  let secret := JScalar (VNum 12345) in
  let route := postTokenRaw unicodeUpper (Some key) development issuer
                            invalidKey invalidData notAFunction in
  let revokedRegistry :=
    snd (revokeDevice sampleRegistry sampleId (Some (str "lost")) sampleNow) in
  route sampleRegistry
        (mkRawTokenRequest (Some (JString sampleId)) (Some secret) None)
        nowMs nowIso
  = (mkResponse 500
       (ErrorBody (str "Failed to create token")
                  (if development then Some (invalidData secret) else None)),
     sampleRegistry, [])
  ∧ route sampleRegistry
          (mkRawTokenRequest (Some (JString (str "11:22:33:44:55:66")))
                             (Some secret) None)
          nowMs nowIso
    = (mkResponse 401 (ErrorBody (str "Invalid credentials") None),
       sampleRegistry, [UnknownDevice (str "11:22:33:44:55:66")])
  ∧ route revokedRegistry
          (mkRawTokenRequest (Some (JString sampleId)) (Some secret) None)
          nowMs nowIso
    = (mkResponse 401 (ErrorBody (str "Invalid credentials") None),
       revokedRegistry, [InactiveDevice sampleId])
  ∧ status sampleDevice = active.
Proof.
  intros secret route revokedRegistry.
  assert (normalizedDeviceId unicodeUpper sampleId = sampleId) as Hnorm
    by reflexivity.
  assert (normalizedDeviceId unicodeUpper (str "11:22:33:44:55:66")
          = str "11:22:33:44:55:66") as Hnorm' by reflexivity.
  assert (getSlot sampleRegistry sampleId = Own sampleDevice) as Hknown
    by (vm_compute; reflexivity).
  assert (getSlot sampleRegistry (str "11:22:33:44:55:66") = Missing)
    as Hunknown by (vm_compute; reflexivity).
  assert (∃ d, getSlot revokedRegistry sampleId = Own d ∧ status d = revoked)
    as (d & Hrevoked & Hst).
  { subst revokedRegistry.
    rewrite (revokeDevice_own _ _ _ _ _ Hknown). cbn [snd].
    eexists. split; [apply getSlot_own, lookup_insert_eq | reflexivity]. }
  subst route. unfold postTokenRaw.
  cbn [rawDeviceId rawSecret rawFirmwareVersion falsy truthy JString secret
       negb orb Z.eqb from_option].
  rewrite Hnorm, Hnorm'. unfold verifyDeviceRaw.
  rewrite Hknown, Hunknown, Hrevoked, Hst.
  repeat split.
Qed.

(** ** Registration and the admin routes on a fresh server *)

(** The statements of this section are about the registry a server has
    built up from the empty one by calls that made no write through an
    inherited name, so that what the store inherits is what the runtime
    defines. *)

Lemma sampleRun_writesOwn : Forall writesOwn sampleRun.
Proof.
  unfold sampleRun.
  repeat (apply Forall_cons; split; [| try apply Forall_nil]);
    try exact I;
    cbn [writesOwn from_option id];
    apply (bool_decide_unpack _); vm_compute; exact I.
Defined.

Section FreshServer.
Variable unicodeUpper : N -> list N.
Variable SERVER_SECRET : jsstring.
Variable development : bool.
Variable nullRead : jsstring.

(** X5: on a fresh server, registering an identifier that is neither
    registered nor the name of an inherited built-in, with metadata that is
    absent or an object of scalar values, succeeds.  The caller receives the
    identifier and the secret, the hexadecimal spelling of the 32 random
    bytes, 64 digits long; the new record is active, has never authenticated
    and is not revoked, and holds the caller's metadata over the two
    defaults; the registry grows by this one record and keeps all others. *)
Theorem registerDevice_adds_active_record calls id body random now :
  Forall writesOwn calls →
  let devices := execAll unicodeUpper SERVER_SECRET development ∅ calls in
  devices !! id = None →
  id ∉ protoKeys →
  body ≠ MetadataNull →
  length random = 32%nat →
  ∃ d, registerDeviceRaw nullRead devices id body random now
       = (Return (mkCredentials id (Crypto.toHex random)), <[id := d]> devices)
       ∧ deviceId d = id
       ∧ secret d = Crypto.toHex random
       ∧ length (secret d) = 64%nat
       ∧ Forall (λ c, Crypto.isHexDigit c = true) (secret d)
       ∧ status d = active
       ∧ registeredAt d = now
       ∧ lastAuthAt d = None
       ∧ authCount d = 0%Z
       ∧ metadata d
         = buildMetadata
             match body with MetadataObject m => m | _ => ∅ end
       ∧ revokedAt d = None
       ∧ revokeReason d = None
       ∧ size (<[id := d]> devices) = S (size devices)
       ∧ ∀ other, other ≠ id → <[id := d]> devices !! other = devices !! other.
Proof.
  intros _ devices Hnone Hproto Hbody Hlen.
  pose proof (getSlot_missing _ _ Hnone Hproto) as Hslot.
  exists (mkDevice id (Crypto.toHex random) active now None 0%Z
                   (buildMetadata
                      match body with MetadataObject m => m | _ => ∅ end)
                   None None).
  split.
  - unfold registerDeviceRaw, registerDevice.
    destruct body as [| | m]; [| congruence |]; now rewrite Hslot.
  - cbn [deviceId secret status registeredAt lastAuthAt authCount
         DeviceModel.metadata revokedAt revokeReason].
    rewrite toHex_length, Hlen.
    repeat split; try apply toHex_digits.
    + now apply map_size_insert_None.
    + intros other Hne. now apply lookup_insert_ne.
Qed.

(** X21: on a fresh server, register answers a request that names a
    string deviceId, or none, and brings metadata that is absent, null or an
    object of scalar values, in one of four ways: 400 "Missing deviceId"
    without an identifier; 400 "Device already registered" when the store
    resolves something under it; 400 with the text of the TypeError when
    nothing is resolved and the metadata is null; and 200 otherwise, with
    the identifier and the secret now stored with the new record.  Only the
    last changes the registry. *)
Theorem postRegister_cases calls raw metadata random now :
  Forall writesOwn calls →
  let devices := execAll unicodeUpper SERVER_SECRET development ∅ calls in
  (falsyStr raw = true
   ∧ postRegisterRaw nullRead devices raw metadata random now
     = (missingDeviceId, devices))
  ∨ (falsyStr raw = false
     ∧ getSlot devices (default [] raw) ≠ Missing
     ∧ postRegisterRaw nullRead devices raw metadata random now
       = (mkResponse 400 (ErrorBody (str "Device already registered") None),
          devices))
  ∨ (falsyStr raw = false
     ∧ getSlot devices (default [] raw) = Missing
     ∧ metadata = MetadataNull
     ∧ postRegisterRaw nullRead devices raw metadata random now
       = (mkResponse 400 (ErrorBody nullRead None), devices))
  ∨ (falsyStr raw = false
     ∧ getSlot devices (default [] raw) = Missing
     ∧ metadata ≠ MetadataNull
     ∧ ∃ d, postRegisterRaw nullRead devices raw metadata random now
            = (json (RegisteredBody (str "Device registered successfully")
                       (mkCredentials (default [] raw) (secret d))),
               <[default [] raw := d]> devices)
            ∧ secret d = Crypto.toHex random
            ∧ status d = active).
Proof.
  intros _ devices. unfold postRegisterRaw.
  destruct (falsyStr raw); [now left |]. right.
  unfold registerDeviceRaw, registerDevice.
  destruct (getSlot devices (default [] raw)) eqn:Hslot.
  - left. split; [reflexivity |]. split; [discriminate |].
    now destruct metadata.
  - left. split; [reflexivity |]. split; [discriminate |].
    now destruct metadata.
  - right. destruct metadata as [| | m].
    + right. split; [reflexivity |]. split; [reflexivity |].
      split; [discriminate |].
      exists (mkDevice (default [] raw) (Crypto.toHex random) active now None
                       0%Z (buildMetadata ∅) None None).
      now repeat split.
    + left. now repeat split.
    + right. split; [reflexivity |]. split; [reflexivity |].
      split; [discriminate |].
      exists (mkDevice (default [] raw) (Crypto.toHex random) active now None
                       0%Z (buildMetadata m) None None).
      now repeat split.
Qed.

(** X22: on a fresh server, revoke answers a request whose deviceId and
    reason are strings or absent with 400 "Missing deviceId" without an
    identifier and 400 "Device not found" when the store resolves nothing
    under it, and leaves the registry unchanged; otherwise it answers 200, a
    record stored under the identifier is revoked from then on, with the
    given time and the given reason, the empty string when none is given,
    and when only an inherited built-in was found the registry is
    unchanged. *)
Theorem postRevoke_cases calls raw reason now :
  Forall writesOwn calls →
  let devices := execAll unicodeUpper SERVER_SECRET development ∅ calls in
  (falsyStr raw = true
   ∧ postRevoke devices raw reason now = (missingDeviceId, devices))
  ∨ (falsyStr raw = false
     ∧ getSlot devices (default [] raw) = Missing
     ∧ postRevoke devices raw reason now
       = (mkResponse 400 (ErrorBody (str "Device not found") None), devices))
  ∨ (falsyStr raw = false
     ∧ getSlot devices (default [] raw) ≠ Missing
     ∧ fst (postRevoke devices raw reason now)
       = json (RevokedBody (str "Device revoked successfully") (default [] raw))
     ∧ (∀ d, devices !! default [] raw = Some d →
             ∃ d', snd (postRevoke devices raw reason now) !! default [] raw
                   = Some d'
                   ∧ status d' = revoked
                   ∧ revokedAt d' = Some now
                   ∧ revokeReason d' = Some (default [] reason))
     ∧ ((∀ d, devices !! default [] raw ≠ Some d) →
        snd (postRevoke devices raw reason now) = devices)).
Proof.
  intros _ devices. unfold postRevoke.
  destruct (falsyStr raw); [now left |]. right.
  destruct (getSlot devices (default [] raw)) as [d | |] eqn:Hslot.
  - right. rewrite (revokeDevice_own _ _ _ _ _ Hslot). cbn [fst snd].
    split; [reflexivity |]. split; [discriminate |].
    split; [reflexivity |]. split.
    + intros d0 Hd0. apply getSlot_own_inv in Hslot.
      eexists. split; [apply lookup_insert_eq |]. now repeat split.
    + intros Hnone. apply getSlot_own_inv in Hslot. now destruct (Hnone d).
  - right. unfold revokeDevice. rewrite Hslot. cbn [fst snd].
    split; [reflexivity |]. split; [discriminate |].
    split; [reflexivity |]. split.
    + intros d Hd. apply getSlot_own in Hd. congruence.
    + reflexivity.
  - left. unfold revokeDevice. rewrite Hslot.
    split; [reflexivity |]. split; reflexivity.
Qed.

(** X23: the two reads of the admin router on a fresh server.  The list
    answers 200 with the number of records as count and, in some order, the
    view of each record, which is the record without its secret; the lookup
    of one identifier answers 404 "Device not found" exactly when the store
    resolves nothing under it, and otherwise 200 with a view that has no
    secret and, for a stored record, every other property of the record. *)
Theorem admin_reads calls id :
  Forall writesOwn calls →
  let devices := execAll unicodeUpper SERVER_SECRET development ∅ calls in
  (∃ views,
      getDevices devices = json (DeviceListBody (size devices) views)
      ∧ views ≡ₚ (λ kd, Some (objectRest (str "secret") (ownProperties kd.2)))
                 <$> map_to_list devices)
  ∧ (getSlot devices id = Missing ↔
     getDeviceById devices id
     = mkResponse 404 (ErrorBody (str "Device not found") None))
  ∧ (getSlot devices id ≠ Missing →
     ∃ view, getDeviceById devices id = json (DeviceBody view)
             ∧ (str "secret" ∉ fieldNames view)
             ∧ ∀ d, devices !! id = Some d →
                    ∀ p, In p (ownProperties d) →
                         fst p ≠ str "secret" → In p view).
Proof.
  intros _ devices. split; [| split].
  - exists (listDevices devices). split.
    + unfold getDevices, listDevices, keys.
      now rewrite !length_map, length_map_to_list.
    + unfold listDevices, keys. rewrite List.map_map.
      erewrite List.map_ext_in; [reflexivity |].
      intros [k d] Hin. cbn [fst snd].
      apply list_elem_of_In, elem_of_map_to_list in Hin.
      unfold getDevice. now rewrite (getSlot_own _ _ _ Hin).
  - unfold getDeviceById, getDevice.
    destruct (getSlot devices id); split; intros H; try discriminate; reflexivity.
  - intros Hslot. unfold getDeviceById, getDevice.
    destruct (getSlot devices id) as [d | |] eqn:Hs; [| | congruence].
    + eexists. split; [reflexivity |]. split; [apply objectRest_drops |].
      intros d0 Hd0 p Hp Hne. apply getSlot_own_inv in Hs.
      assert (d0 = d) as -> by congruence. now apply objectRest_keeps.
    + eexists. split; [reflexivity |]. split; [apply objectRest_drops |].
      intros d0 Hd0. apply getSlot_own in Hd0. congruence.
Qed.

End FreshServer.

Lemma registerDevice_adds_active_record_witness :
  ∃ d, registerDeviceRaw
         (str "Cannot read properties of null (reading 'firmwareVersion')")
         (execAll caselessBeyondAscii sampleKey false ∅ sampleRun)
         (str "11:22:33:44:55:66") MetadataAbsent (repeat Byte.x01 32)
         sampleNow
       = (Return (mkCredentials (str "11:22:33:44:55:66")
                                (Crypto.toHex (repeat Byte.x01 32))),
          <[str "11:22:33:44:55:66" := d]>
            (execAll caselessBeyondAscii sampleKey false ∅ sampleRun))
       ∧ status d = active
       ∧ metadata d = buildMetadata ∅.
Proof.
  destruct (registerDevice_adds_active_record caselessBeyondAscii sampleKey
              false
              (str "Cannot read properties of null (reading 'firmwareVersion')")
              sampleRun (str "11:22:33:44:55:66") MetadataAbsent
              (repeat Byte.x01 32) sampleNow)
    as (d & Hres & _ & _ & _ & _ & Hst & _ & _ & _ & Hmeta & _).
  - exact sampleRun_writesOwn.
  - vm_compute. reflexivity.
  - apply (bool_decide_unpack _). vm_compute. exact I.
  - discriminate.
  - reflexivity.
  - exists d. split; [exact Hres | split; [exact Hst | exact Hmeta]].
Defined.

Lemma postRegister_cases_witness :
  let devices := execAll caselessBeyondAscii sampleKey false ∅ sampleRun in
  let raw := Some (str "11:22:33:44:55:66") in
  let nullRead :=
    str "Cannot read properties of null (reading 'firmwareVersion')" in
  let answer :=
    postRegisterRaw nullRead devices raw MetadataNull (repeat Byte.x01 32)
                    sampleNow in
  (falsyStr raw = true ∧ answer = (missingDeviceId, devices))
  ∨ (falsyStr raw = false
     ∧ getSlot devices (default [] raw) ≠ Missing
     ∧ answer
       = (mkResponse 400 (ErrorBody (str "Device already registered") None),
          devices))
  ∨ (falsyStr raw = false
     ∧ getSlot devices (default [] raw) = Missing
     ∧ MetadataNull = MetadataNull
     ∧ answer = (mkResponse 400 (ErrorBody nullRead None), devices))
  ∨ (falsyStr raw = false
     ∧ getSlot devices (default [] raw) = Missing
     ∧ MetadataNull ≠ MetadataNull
     ∧ ∃ d, answer
            = (json (RegisteredBody (str "Device registered successfully")
                       (mkCredentials (default [] raw) (secret d))),
               <[default [] raw := d]> devices)
            ∧ secret d = Crypto.toHex (repeat Byte.x01 32)
            ∧ status d = active).
Proof.
  exact (postRegister_cases caselessBeyondAscii sampleKey false
           (str "Cannot read properties of null (reading 'firmwareVersion')")
           sampleRun (Some (str "11:22:33:44:55:66")) MetadataNull
           (repeat Byte.x01 32) sampleNow sampleRun_writesOwn).
Defined.

Lemma postRevoke_cases_witness :
  let devices := execAll caselessBeyondAscii sampleKey false ∅ sampleRun in
  let raw := Some (str "5C:CF:7F:12:34:56") in
  let answer := postRevoke devices raw None sampleNow in
  (falsyStr raw = true ∧ answer = (missingDeviceId, devices))
  ∨ (falsyStr raw = false
     ∧ getSlot devices (default [] raw) = Missing
     ∧ answer
       = (mkResponse 400 (ErrorBody (str "Device not found") None), devices))
  ∨ (falsyStr raw = false
     ∧ getSlot devices (default [] raw) ≠ Missing
     ∧ fst answer
       = json (RevokedBody (str "Device revoked successfully") (default [] raw))
     ∧ (∀ d, devices !! default [] raw = Some d →
             ∃ d', snd answer !! default [] raw = Some d'
                   ∧ status d' = revoked
                   ∧ revokedAt d' = Some sampleNow
                   ∧ revokeReason d' = Some (default [] None))
     ∧ ((∀ d, devices !! default [] raw ≠ Some d) → snd answer = devices)).
Proof.
  exact (postRevoke_cases caselessBeyondAscii sampleKey false sampleRun
           (Some (str "5C:CF:7F:12:34:56")) None sampleNow
           sampleRun_writesOwn).
Defined.

Lemma admin_reads_witness :
  let devices := execAll caselessBeyondAscii sampleKey false ∅ sampleRun in
  (∃ views,
      getDevices devices = json (DeviceListBody (size devices) views)
      ∧ views ≡ₚ (λ kd, Some (objectRest (str "secret") (ownProperties kd.2)))
                 <$> map_to_list devices)
  ∧ (getSlot devices sampleId = Missing ↔
     getDeviceById devices sampleId
     = mkResponse 404 (ErrorBody (str "Device not found") None))
  ∧ (getSlot devices sampleId ≠ Missing →
     ∃ view, getDeviceById devices sampleId = json (DeviceBody view)
             ∧ (str "secret" ∉ fieldNames view)
             ∧ ∀ d, devices !! sampleId = Some d →
                    ∀ p, In p (ownProperties d) →
                         fst p ≠ str "secret" → In p view).
Proof.
  exact (admin_reads caselessBeyondAscii sampleKey false sampleRun sampleId
           sampleRun_writesOwn).
Defined.
